(** * pymcuprog command-line front end: literal parsers, logging bootstrap, dispatch

    A shallow embedding of [pymcuprog/pymcuprog.py]:
    - [_parse_literal] and [_parse_direct], the two [type=] converters of the
      [--literal] and [--direct] options;
    - [setup_logging], which merges the YAML logging configuration with the
      level requested on the command line;
    - the [nargs] decision of the [action] positional and the [try]/[except]
      around the engine call in [main].

    Python exceptions are results of an error monad; [print], the process-wide
    logging configuration and the file system are an explicit state.

    The built-ins follow Python 3 (the messages are those of Python 3.11) on
    ASCII text and POSIX paths; [plain] below says on which tokens the
    readings of [int] and [float] are Python's.  What the
    program takes from its libraries ([yaml], [appdirs], [logging.config],
    the engine) enters as the outcome of the call: a value or an exception. *)

From Stdlib Require Import ZArith NArith List Bool Lia.
From Stdlib Require Import Strings.Ascii Strings.String.
Import ListNotations.

Local Open Scope string_scope.
Local Open Scope Z_scope.

Set Warnings "-register-all".

(** ** Exceptions *)

Module Py.

(** The exception classes the program can meet.  [KeyboardInterrupt],
    [SystemExit] and [GeneratorExit] derive from [BaseException] only; all the
    others derive from [Exception]. *)
Inductive exc_class : Type :=
| ValueError
| KeyError
| TypeError
| AttributeError
| OSError
| RuntimeError
| ScannerError          (* yaml.scanner.ScannerError *)
| ParserError           (* yaml.parser.ParserError *)
| KeyboardInterrupt
| SystemExit
| GeneratorExit.

(** An exception object: its class and [str(exc)]. *)
Record exn : Type := Exn { exc_type : exc_class; exc_str : string }.

(** [type(exc).__name__] *)
Definition class_name (c : exc_class) : string :=
  match c with
  | ValueError => "ValueError"
  | KeyError => "KeyError"
  | TypeError => "TypeError"
  | AttributeError => "AttributeError"
  | OSError => "OSError"
  | RuntimeError => "RuntimeError"
  | ScannerError => "ScannerError"
  | ParserError => "ParserError"
  | KeyboardInterrupt => "KeyboardInterrupt"
  | SystemExit => "SystemExit"
  | GeneratorExit => "GeneratorExit"
  end.

(** [isinstance(exc, Exception)] *)
Definition isinstance_Exception (c : exc_class) : bool :=
  match c with
  | KeyboardInterrupt | SystemExit | GeneratorExit => false
  | _ => true
  end.

(** The outcome of evaluating an expression: a value or a raised exception. *)
Inductive result (A : Type) : Type :=
| Ok (a : A)
| Raise (e : exn).
Arguments Ok {A} a.
Arguments Raise {A} e.

Definition bind {A B} (r : result A) (k : A -> result B) : result B :=
  match r with
  | Ok a => k a
  | Raise e => Raise e
  end.

(** [list(map(f, xs))]: the elements are converted from left to right and the
    first exception ends the conversion. *)
Fixpoint map_list {A B} (f : A -> result B) (xs : list A) : result (list B) :=
  match xs with
  | [] => Ok []
  | x :: xs' =>
      bind (f x) (fun y => bind (map_list f xs') (fun ys => Ok (y :: ys)))
  end.

End Py.
Import Py.

Notation "x <- c ;; k" := (Py.bind c (fun x => k))
  (at level 61, c at next level, right associativity).

(** [r] ends with an exception of class [c]. *)
Definition raises {A} (r : result A) (c : exc_class) : Prop :=
  exists e, r = Raise e /\ exc_type e = c.

(** ** Strings *)

Definition colon : ascii := ":"%char.

(** [":" in s] *)
Fixpoint contains (sep : ascii) (s : string) : bool :=
  match s with
  | EmptyString => false
  | String c s' => Ascii.eqb c sep || contains sep s'
  end.

(** [s.split(sep)] for a one-character separator: every occurrence splits,
    and the result has one segment more than there are occurrences. *)
Fixpoint split (sep : ascii) (s : string) : list string :=
  match s with
  | EmptyString => [EmptyString]
  | String c s' =>
      if Ascii.eqb c sep then EmptyString :: split sep s'
      else match split sep s' with
           | seg :: rest => String c seg :: rest
           | [] => [String c EmptyString]
           end
  end.

(** Reading "split into at most two parts" as a split at the first separator
    only, [s.split(sep, 1)]; the program does not call it. *)
Fixpoint split_at_first (sep : ascii) (s : string) : list string :=
  match s with
  | EmptyString => [EmptyString]
  | String c s' =>
      if Ascii.eqb c sep then [EmptyString; s']
      else match split_at_first sep s' with
           | seg :: rest => String c seg :: rest
           | [] => [String c EmptyString]
           end
  end.

(** Whitespace removed around the text of a number by [int] and [float] on an
    ASCII string: tab, line feed, vertical tab, form feed, carriage return
    and the space. *)
Definition is_space (c : ascii) : bool :=
  let n := nat_of_ascii c in
  ((9 <=? n)%nat && (n <=? 13)%nat) || (n =? 32)%nat.

Fixpoint lstrip (s : string) : string :=
  match s with
  | EmptyString => EmptyString
  | String c s' => if is_space c then lstrip s' else s
  end.

Fixpoint rstrip (s : string) : string :=
  match s with
  | EmptyString => EmptyString
  | String c s' =>
      match rstrip s' with
      | EmptyString => if is_space c then EmptyString else String c EmptyString
      | r => String c r
      end
  end.

Definition strip (s : string) : string := rstrip (lstrip s).

(** The tokens on which [int_literal] and [float_literal] below are the
    readings of Python: ASCII text (on other text Python also accepts the
    digits and blanks of Unicode) of at most 640 characters (the interpreter
    refuses decimal integers of more digits than a limit that is 4300 unless
    it is set otherwise, and is never applied to 640 digits or fewer). *)
Fixpoint all_ascii (s : string) : bool :=
  match s with
  | EmptyString => true
  | String c s' => (nat_of_ascii c <? 128)%nat && all_ascii s'
  end.

Definition plain (s : string) : bool :=
  all_ascii s && (String.length s <=? 640)%nat.

(** ** [int(x, 0)]

    The integer literals of Python 3 with the base taken from the prefix:
    [0x], [0o], [0b] in either case, decimal otherwise; an optional sign;
    single underscores between digits and after a prefix; a decimal literal
    with a leading zero must be zero.  Tokens are ASCII. *)

Definition digit_value (c : ascii) : option Z :=
  let n := Z.of_nat (nat_of_ascii c) in
  if (48 <=? n) && (n <=? 57) then Some (n - 48)
  else if (97 <=? n) && (n <=? 122) then Some (n - 87)
  else if (65 <=? n) && (n <=? 90) then Some (n - 55)
  else None.

Definition underscore : ascii := "_"%char.

(** The digits after the first position: [prev_us] tells that the character
    before was an underscore. *)
Fixpoint digits_value (base acc : Z) (prev_us : bool) (s : string) : option Z :=
  match s with
  | EmptyString => if prev_us then None else Some acc
  | String c s' =>
      if Ascii.eqb c underscore then
        if prev_us then None else digits_value base acc true s'
      else
        match digit_value c with
        | Some d =>
            if d <? base then digits_value base (acc * base + d) false s'
            else None
        | None => None
        end
  end.

(** A non-empty run of digits of [base] that does not start with an
    underscore. *)
Definition digits (base : Z) (s : string) : option Z :=
  match s with
  | EmptyString => None
  | String c _ =>
      if Ascii.eqb c underscore then None else digits_value base 0 false s
  end.

(** After a base prefix one underscore may come before the digits. *)
Definition prefixed (base : Z) (s : string) : option Z :=
  match s with
  | String c r => if Ascii.eqb c underscore then digits base r else digits base s
  | EmptyString => None
  end.

Definition is_char (a b : string) (c : ascii) : bool :=
  String.eqb (String c EmptyString) a || String.eqb (String c EmptyString) b.

Definition unsigned_literal (body : string) : option Z :=
  match body with
  | String z (String c r) =>
      if negb (Ascii.eqb z "0") then digits 10 body
      else if is_char "x" "X" c then prefixed 16 r
      else if is_char "o" "O" c then prefixed 8 r
      else if is_char "b" "B" c then prefixed 2 r
      else match digits 10 body with
           | Some 0 => Some 0
           | _ => None
           end
  | _ => digits 10 body
  end.

Definition int_literal (s : string) : option Z :=
  match strip s with
  | String c body =>
      if Ascii.eqb c "-" then option_map Z.opp (unsigned_literal body)
      else if Ascii.eqb c "+" then unsigned_literal body
      else unsigned_literal (String c body)
  | EmptyString => None
  end.

(** [int(x, 0)] on a string: the value, or [ValueError]. *)
Definition py_int0 (x : string) : result Z :=
  match int_literal x with
  | Some n => Ok n
  | None =>
      Raise (Exn ValueError ("invalid literal for int() with base 0: '" ++ x ++ "'"))
  end.

(** ** [float(x)]

    The text is stripped, checked for underscores (each one between two
    decimal digits) and read as an optional sign followed by [inf],
    [infinity], [nan] (in any case) or a decimal number with an optional
    fraction and exponent.  The result is kept as the decimal number that was
    written: [FDec neg m e] stands for the binary64 number nearest to
    [(-1)^neg * m * 10^e]; the rounding itself is not part of the model. *)

Inductive pyfloat : Type :=
| FNan (neg : bool)
| FInf (neg : bool)
| FDec (neg : bool) (mant : N) (exp10 : Z).

Definition is_dec_digit (c : ascii) : bool :=
  let n := nat_of_ascii c in ((48 <=? n)%nat && (n <=? 57)%nat).

(** Underscores are removed; one that does not stand between two digits makes
    the text invalid.  [prev] is the character before, if any. *)
Fixpoint remove_underscores (prev : option ascii) (s : string) : option string :=
  match s with
  | EmptyString =>
      match prev with
      | Some p => if Ascii.eqb p underscore then None else Some EmptyString
      | None => Some EmptyString
      end
  | String c r =>
      if Ascii.eqb c underscore then
        match prev with
        | Some p => if is_dec_digit p then remove_underscores (Some c) r else None
        | None => None
        end
      else
        match prev with
        | Some p =>
            if Ascii.eqb p underscore && negb (is_dec_digit c) then None
            else option_map (String c) (remove_underscores (Some c) r)
        | None => option_map (String c) (remove_underscores (Some c) r)
        end
  end.

(** The longest prefix of decimal digits: its value on top of [acc], its
    length on top of [cnt], and what follows. *)
Fixpoint take_digits (acc : N) (cnt : nat) (s : string) : N * nat * string :=
  match s with
  | String c r =>
      if is_dec_digit c
      then take_digits (acc * 10 + N.of_nat (nat_of_ascii c - 48)) (S cnt) r
      else (acc, cnt, s)
  | EmptyString => (acc, cnt, s)
  end.

Definition lower (c : ascii) : ascii :=
  let n := nat_of_ascii c in
  if ((65 <=? n)%nat && (n <=? 90)%nat) then ascii_of_nat (n + 32) else c.

Fixpoint lowercase (s : string) : string :=
  match s with
  | EmptyString => EmptyString
  | String c r => String (lower c) (lowercase r)
  end.

(** The exponent part: nothing, or [e]/[E], an optional sign and digits. *)
Definition exponent (s : string) : option Z :=
  match s with
  | EmptyString => Some 0
  | String c r =>
      if is_char "e" "E" c then
        let '(neg, ds) :=
          match r with
          | String sg ds =>
              if Ascii.eqb sg "-" then (true, ds)
              else if Ascii.eqb sg "+" then (false, ds)
              else (false, r)
          | EmptyString => (false, r)
          end in
        match take_digits 0 0 ds with
        | (_, O, _) => None
        | (v, _, EmptyString) => Some (if neg then - Z.of_N v else Z.of_N v)
        | _ => None
        end
      else None
  end.

Definition decimal (neg : bool) (body : string) : option pyfloat :=
  let '(ip, n1, r1) := take_digits 0 0 body in
  let '(m, n2, r2) :=
    match r1 with
    | String p frac => if Ascii.eqb p "." then take_digits ip 0 frac else (ip, O, r1)
    | EmptyString => (ip, O, r1)
    end in
  match (n1 + n2)%nat with
  | O => None
  | _ => option_map (fun e => FDec neg m (e - Z.of_nat n2)) (exponent r2)
  end.

Definition unsigned_float (neg : bool) (body : string) : option pyfloat :=
  match decimal neg body with
  | Some f => Some f
  | None =>
      let w := lowercase body in
      if String.eqb w "inf" || String.eqb w "infinity" then Some (FInf neg)
      else if String.eqb w "nan" then Some (FNan neg)
      else None
  end.

Definition float_literal (s : string) : option pyfloat :=
  match remove_underscores None (strip s) with
  | Some (String c body) =>
      if Ascii.eqb c "-" then unsigned_float true body
      else if Ascii.eqb c "+" then unsigned_float false body
      else unsigned_float false (String c body)
  | _ => None
  end.

(** [float(x)] on a string: the value, or [ValueError]. *)
Definition py_float (x : string) : result pyfloat :=
  match float_literal x with
  | Some f => Ok f
  | None =>
      Raise (Exn ValueError ("could not convert string to float: '" ++ x ++ "'"))
  end.

(** ** The literal parsers *)

(** What the two converters return. *)
Inductive pyval : Type :=
| VNone
| VInt (n : Z)
| VFloat (f : pyfloat)
| VList (xs : list pyval).

(** [except ValueError]: the handler runs only for that class. *)
Definition except_ValueError {A} (r : result A) (handler : result A) : result A :=
  match r with
  | Ok a => Ok a
  | Raise e =>
      match exc_type e with
      | ValueError => handler
      | _ => Raise e
      end
  end.

(** [list(map(lambda x: int(x, 0), segs[:2]))] *)
Definition ints_of (segs : list string) : result pyval :=
  xs <- map_list (fun x => n <- py_int0 x ;; Ok (VInt n)) (firstn 2 segs) ;;
  Ok (VList xs).

(** [list(map(lambda x: float(x), segs[:2]))] *)
Definition floats_of (segs : list string) : result pyval :=
  xs <- map_list (fun x => f <- py_float x ;; Ok (VFloat f)) (firstn 2 segs) ;;
  Ok (VList xs).

Definition _parse_literal (literal : string) : result pyval :=
  if contains colon literal then ints_of (split colon literal)
  else
    except_ValueError
      (n <- py_int0 literal ;; Ok (VInt n))
      (f <- py_float literal ;; Ok (VFloat f)).

(** Without a colon the function ends without a [return]: the caller gets
    [None]. *)
Definition _parse_direct (literal : string) : result pyval :=
  if contains colon literal then
    except_ValueError (ints_of (split colon literal))
                      (floats_of (split colon literal))
  else Ok VNone.


(** ** The YAML document and the dictionary operations used on it

    [yaml.safe_load] returns [None], booleans, numbers, strings, lists and
    dictionaries.  A dictionary is an association list in insertion order, the
    order in which [keys()] iterates; a lookup takes the first binding of a
    key.  Documents are trees: anchors that would make two entries share one
    dictionary are left out. *)

Inductive yaml : Type :=
| YNull
| YBool (b : bool)
| YInt (n : Z)
| YStr (s : string)
| YSeq (xs : list yaml)
| YMap (kvs : list (string * yaml)).

Fixpoint assoc {A} (k : string) (kvs : list (string * A)) : option A :=
  match kvs with
  | [] => None
  | (k', v) :: rest => if String.eqb k k' then Some v else assoc k rest
  end.

(** [d[k] = v] on the bindings: the binding of [k] is replaced where it
    stands, a new key goes to the end. *)
Fixpoint assoc_set {A} (k : string) (v : A) (kvs : list (string * A))
  : list (string * A) :=
  match kvs with
  | [] => [(k, v)]
  | (k', v') :: rest =>
      if String.eqb k k' then (k', v) :: rest else (k', v') :: assoc_set k v rest
  end.

Definition quoted (k : string) : string := "'" ++ k ++ "'".

(** [type(v).__name__] *)
Definition type_name (v : yaml) : string :=
  match v with
  | YNull => "NoneType"
  | YBool _ => "bool"
  | YInt _ => "int"
  | YStr _ => "str"
  | YSeq _ => "list"
  | YMap _ => "dict"
  end.

(** [d[k]] *)
Definition getitem (d : yaml) (k : string) : result yaml :=
  match d with
  | YMap kvs =>
      match assoc k kvs with
      | Some v => Ok v
      | None => Raise (Exn KeyError (quoted k))
      end
  | YSeq _ => Raise (Exn TypeError "list indices must be integers or slices, not str")
  | YStr _ => Raise (Exn TypeError "string indices must be integers, not 'str'")
  | _ => Raise (Exn TypeError (quoted (type_name d) ++ " object is not subscriptable"))
  end.

(** [d.keys()] *)
Definition keys (d : yaml) : result (list string) :=
  match d with
  | YMap kvs => Ok (map fst kvs)
  | _ => Raise (Exn AttributeError
                  (quoted (type_name d) ++ " object has no attribute 'keys'"))
  end.

(** [d[k] = v] *)
Definition setitem (d : yaml) (k : string) (v : yaml) : result yaml :=
  match d with
  | YMap kvs => Ok (YMap (assoc_set k v kvs))
  | YSeq _ => Raise (Exn TypeError "list indices must be integers or slices, not str")
  | _ => Raise (Exn TypeError
                  (quoted (type_name d) ++ " object does not support item assignment"))
  end.

(** [k in ks] *)
Definition mem (k : string) (ks : list string) : bool := existsb (String.eqb k) ks.

(** [os.path.join(a, b)] with POSIX separators. *)
Fixpoint ends_with_slash (a : string) : bool :=
  match a with
  | EmptyString => false
  | String c EmptyString => Ascii.eqb c "/"%char
  | String _ r => ends_with_slash r
  end.

Definition starts_with_slash (b : string) : bool :=
  match b with
  | String c _ => Ascii.eqb c "/"%char
  | EmptyString => false
  end.

Definition os_path_join (a b : string) : string :=
  if starts_with_slash b then b
  else if String.eqb a EmptyString || ends_with_slash a then a ++ b
  else a ++ "/" ++ b.

(** [os.path.join(logdir, v)] on a value of the document: only a string can
    be joined. *)
Definition join_value (logdir : string) (v : yaml) : result yaml :=
  match v with
  | YStr f => Ok (YStr (os_path_join logdir f))
  | _ => Raise (Exn TypeError
                  ("join() argument must be str, bytes, or os.PathLike object, not "
                   ++ quoted (type_name v)))
  end.

(** The logging functions of the [logging] module that share their name, in
    lower case, with a level. *)
Definition logging_functions (name : string) : option string :=
  if String.eqb name "critical" || String.eqb name "fatal"
     || String.eqb name "error" || String.eqb name "warning"
     || String.eqb name "warn" || String.eqb name "info"
     || String.eqb name "debug"
  then Some "function" else None.

(** The numeric level constants of the [logging] module. *)
Definition logging_levels (name : string) : option Z :=
  if String.eqb name "CRITICAL" then Some 50
  else if String.eqb name "FATAL" then Some 50
  else if String.eqb name "ERROR" then Some 40
  else if String.eqb name "WARNING" then Some 30
  else if String.eqb name "WARN" then Some 30
  else if String.eqb name "INFO" then Some 20
  else if String.eqb name "DEBUG" then Some 10
  else if String.eqb name "NOTSET" then Some 0
  else None.

(** ** The process around [setup_logging]

    What the function reads from outside the program is a [world]; what it
    changes is a [state]. *)

Record world : Type := World {
  (** [os.getenv(env_key, None)] *)
  getenv : option string;
  (** [os.path.dirname(__file__)] *)
  module_dir : string;
  (** [os.path.exists] *)
  path_exists : string -> bool;
  (** [open(path, 'rt')] followed by [yaml.safe_load(file)] *)
  load : string -> result yaml;
  (** [user_log_dir(__name__, "Microchip")] *)
  log_dir : string;
  (** the exception [Path(logdir).mkdir(exist_ok=True, parents=True)] raises,
      if it does *)
  mkdir_error : string -> option exn;
  (** the exception [dictConfig] raises on a configuration it rejects *)
  dictConfig_error : yaml -> option exn;
  (** the integer attributes of the [logging] module, [logging_levels] among
      them *)
  logging_attr : string -> option Z;
  (** the other attributes of the [logging] module, each with the name of its
      type; [getattr] returns such an object and the [min] around it raises *)
  logging_object : string -> option string
}.

(** The logging configuration that is active in the process. *)
Inductive logging_config : Type :=
| Unconfigured
| DictConfigured (configfile : yaml)
| BasicConfigured (level : Z).

(** A call of a logger method: severity, message, and whether the traceback
    is attached ([exc_info=True]). *)
Record log_record : Type := LogRecord {
  levelno : Z;
  message : string;
  exc_info : bool
}.

Record state : Type := State {
  stdout : list string;
  active : logging_config;
  created_dirs : list string;
  log_calls : list log_record
}.

Definition initial_state : state :=
  {| stdout := []; active := Unconfigured; created_dirs := []; log_calls := [] |}.

(** Statements: a state transformer that ends normally or by an exception. *)
Definition M (A : Type) : Type := state -> state * result A.

Definition ret {A} (a : A) : M A := fun s => (s, Ok a).

Definition bindM {A B} (m : M A) (k : A -> M B) : M B :=
  fun s =>
    match m s with
    | (s', Ok a) => k a s'
    | (s', Raise e) => (s', Raise e)
    end.

Definition lift {A} (r : result A) : M A := fun s => (s, r).

Notation "x <~ c ;; k" := (bindM c (fun x => k))
  (at level 61, c at next level, right associativity).

Definition print (line : string) : M unit :=
  fun s =>
    ({| stdout := stdout s ++ [line]; active := active s;
        created_dirs := created_dirs s; log_calls := log_calls s |}, Ok tt).

Definition set_active (c : logging_config) : M unit :=
  fun s =>
    ({| stdout := stdout s; active := c;
        created_dirs := created_dirs s; log_calls := log_calls s |}, Ok tt).

(** [Path(logdir).mkdir(exist_ok=True, parents=True)]: [created_dirs] lists
    the directories the program asked for; the missing parents that are made
    on the way are not listed. *)
Definition mkdir (w : world) (logdir : string) : M unit :=
  fun s =>
    match mkdir_error w logdir with
    | Some e => (s, Raise e)
    | None =>
        ({| stdout := stdout s; active := active s;
            created_dirs := if mem logdir (created_dirs s) then created_dirs s
                            else created_dirs s ++ [logdir];
            log_calls := log_calls s |}, Ok tt)
    end.

(** [dictConfig(configfile)].  What a call that raises has already changed in
    the logging module is not part of the model: the state is kept. *)
Definition dictConfig (w : world) (configfile : yaml) : M unit :=
  match dictConfig_error w configfile with
  | Some e => lift (Raise e)
  | None => set_active (DictConfigured configfile)
  end.

(** [logging.basicConfig(level=...)]: it configures the root logger only when
    nothing has been configured before. *)
Definition basicConfig (level : Z) : M unit :=
  fun s =>
    match active s with
    | Unconfigured => set_active (BasicConfigured level) s
    | _ => (s, Ok tt)
    end.

(** [logger.error] and [logger.debug] *)
Definition log (r : log_record) : M unit :=
  fun s =>
    ({| stdout := stdout s; active := active s;
        created_dirs := created_dirs s; log_calls := log_calls s ++ [r] |}, Ok tt).

(** [getattr(logging, name)] where [name] is a value of the document, together
    with the [min] the program applies to the result: an integer goes through,
    another object makes [min] raise, a missing name makes [getattr] raise. *)
Definition getattr_logging (w : world) (name : yaml) : result Z :=
  match name with
  | YStr n =>
      match logging_attr w n with
      | Some level => Ok level
      | None =>
          match logging_object w n with
          | Some type =>
              Raise (Exn TypeError
                       ("'<' not supported between instances of " ++ quoted type
                        ++ " and 'int'"))
          | None =>
              Raise (Exn AttributeError
                       ("module 'logging' has no attribute " ++ quoted n))
          end
      end
  | _ => Raise (Exn TypeError
                  ("attribute name must be string, not " ++ quoted (type_name name)))
  end.

(** ** [setup_logging] *)

(** [configfile['handlers'][handler]] *)
Definition handler_of (configfile : yaml) (handler : string) : result yaml :=
  hs <- getitem configfile "handlers" ;;
  getitem hs handler.

(** ['filename' in configfile['handlers'][handler].keys()] *)
Definition has_filename (configfile : yaml) (handler : string) : result bool :=
  h <- handler_of configfile handler ;;
  ks <- keys h ;;
  Ok (mem "filename" ks).

(** [configfile['handlers'][handler][k] = v]; the dictionaries on the way are
    rebuilt around the changed one. *)
Definition set_handler_field (configfile : yaml) (handler k : string) (v : yaml)
  : result yaml :=
  hs <- getitem configfile "handlers" ;;
  h <- getitem hs handler ;;
  h' <- setitem h k v ;;
  hs' <- setitem hs handler h' ;;
  setitem configfile "handlers" hs'.

(** The first loop over the handlers: the file name of every handler that has
    one is moved under the log directory, and these handlers are counted. *)
Fixpoint redirect_file_handlers (logdir : string) (names : list string)
    (configfile : yaml) (num_file_handlers : Z) : result (yaml * Z) :=
  match names with
  | [] => Ok (configfile, num_file_handlers)
  | handler :: rest =>
      b <- has_filename configfile handler ;;
      if (b : bool) then
        h <- handler_of configfile handler ;;
        old <- getitem h "filename" ;;
        new <- join_value logdir old ;;
        configfile' <- set_handler_field configfile handler "filename" new ;;
        redirect_file_handlers logdir rest configfile' (num_file_handlers + 1)
      else redirect_file_handlers logdir rest configfile num_file_handlers
  end.

Definition redirect (logdir : string) (configfile : yaml) : result (yaml * Z) :=
  hs <- getitem configfile "handlers" ;;
  names <- keys hs ;;
  redirect_file_handlers logdir names configfile 0.

(** The second loop: the level of every handler with a file name is folded
    into the most verbose level found so far. *)
Fixpoint most_verbose_of (w : world) (names : list string) (configfile : yaml)
    (most_verbose_logging : Z) : result Z :=
  match names with
  | [] => Ok most_verbose_logging
  | handler :: rest =>
      b <- has_filename configfile handler ;;
      if (b : bool) then
        h <- handler_of configfile handler ;;
        name <- getitem h "level" ;;
        level <- getattr_logging w name ;;
        most_verbose_of w rest configfile (Z.min most_verbose_logging level)
      else most_verbose_of w rest configfile most_verbose_logging
  end.

(** [configfile['root']['level'] = level] *)
Definition set_root_level (configfile : yaml) (level : Z) : result yaml :=
  root <- getitem configfile "root" ;;
  root' <- setitem root "level" (YInt level) ;;
  setitem configfile "root" root'.

(** Lines 62 to 70: the console level, the most verbose level, the root
    level.  The result is the configuration and the level given to its root. *)
Definition reconcile (w : world) (user_requested_level : Z) (configfile : yaml)
  : result (yaml * Z) :=
  configfile <- set_handler_field configfile "console" "level"
                                  (YInt user_requested_level) ;;
  root <- getitem configfile "root" ;;
  name <- getitem root "level" ;;
  root_level <- getattr_logging w name ;;
  let most_verbose_logging := Z.min user_requested_level root_level in
  hs <- getitem configfile "handlers" ;;
  names <- keys hs ;;
  most_verbose_logging <- most_verbose_of w names configfile most_verbose_logging ;;
  configfile <- set_root_level configfile most_verbose_logging ;;
  Ok (configfile, most_verbose_logging).

(** The body of the [try] statement, up to its [return]. *)
Definition load_and_configure (w : world) (user_requested_level : Z) (path : string)
  : M unit :=
  configfile <~ lift (load w path) ;;
  let logdir := log_dir w in
  r <~ lift (redirect logdir configfile) ;;
  _ <~ (if 0 <? snd r then mkdir w logdir else ret tt) ;;
  r' <~ lift (reconcile w user_requested_level (fst r)) ;;
  dictConfig w (fst r').

(** The two [except] clauses.  [true] is the [return] of the [try] body,
    [false] the way on to the basic configuration. *)
Definition try_load (path : string) (body : M unit) : M bool :=
  fun s =>
    match body s with
    | (s', Ok _) => (s', Ok true)
    | (s', Raise e) =>
        match exc_type e with
        | ScannerError =>
            (_ <~ print ("Error parsing logging config file " ++ quoted path) ;;
             ret false) s'
        | KeyError =>
            (_ <~ print ("Key " ++ exc_str e ++ " not found in logging config file") ;;
             ret false) s'
        | _ => (s', Raise e)
        end
    end.

Definition config_path (w : world) (default_path : string) : string :=
  match getenv w with
  | Some (String c v) => String c v
  | _ => os_path_join (module_dir w) default_path
  end.

Definition setup_logging (w : world) (user_requested_level : Z) (default_path : string)
  : M unit :=
  let path := config_path w default_path in
  returned <~
    (if path_exists w path
     then try_load path (load_and_configure w user_requested_level path)
     else _ <~ print ("Unable to open logging config file " ++ quoted path) ;;
          ret false) ;;
  if (returned : bool) then ret tt
  else _ <~ print "Reverting to basic logging." ;;
       basicConfig user_requested_level.

(** ** [main] *)

(** The keywords of [parser.add_argument("action", ...)]. *)
Record positional : Type := Positional {
  nargs : option string;
  default : string;
  choices : list string
}.

(** The declaration of the [action] argument for the raw tokens [sys.argv]. *)
Definition action_argument (argv : list string) : positional :=
  {| nargs := if mem "-V" argv || mem "--version" argv
                 || mem "-R" argv || mem "--release-info" argv
              then Some "?" else None;
     default := "ping";
     choices := ["ping"; "erase"; "read"; "write"; "verify"; "getvoltage";
                 "getsupplyvoltage"; "reboot-debugger"; "setsupplyvoltage";
                 "getusbvoltage"; "reset"] |}.

(** What [argparse] does with a positional that takes at most one token:
    without [nargs] exactly one token is consumed, with [nargs="?"] a missing
    token is replaced by the default; the value must be one of the choices.
    A usage error ends the process through [SystemExit(2)]. *)
Definition parse_positional (p : positional) (given : option string) : result string :=
  let checked v :=
    if mem v (choices p) then Ok v
    else Raise (Exn SystemExit "2") in
  match given with
  | Some v => checked v
  | None =>
      match nargs p with
      | Some n => if String.eqb n "?" then checked (default p)
                  else Raise (Exn SystemExit "2")
      | None => Raise (Exn SystemExit "2")
      end
  end.

Fixpoint uppercase (s : string) : string :=
  match s with
  | EmptyString => EmptyString
  | String c r =>
      let n := nat_of_ascii c in
      String (if ((97 <=? n)%nat && (n <=? 122)%nat) then ascii_of_nat (n - 32) else c)
             (uppercase r)
  end.

Definition ERROR : Z := 40.
Definition DEBUG : Z := 10.

(** The [try] statement around the engine call.  [call] is
    [pymcuprog_main.pymcuprog(arguments)]; the function returns what the
    engine returns, or [None] after the [except] clause. *)
Definition dispatch {A} (call : M A) : M (option A) :=
  fun s =>
    match call s with
    | (s', Ok status) => (s', Ok (Some status))
    | (s', Raise exc) =>
        if isinstance_Exception (exc_type exc) then
          (_ <~ log {| levelno := ERROR;
                       message := "Operation failed with "
                                  ++ class_name (exc_type exc) ++ ": " ++ exc_str exc;
                       exc_info := false |} ;;
           _ <~ log {| levelno := DEBUG; message := exc_str exc; exc_info := true |} ;;
           ret None) s'
        else (s', Raise exc)
    end.

(** [main] from [parser.parse_args()] on: [verbose] is [arguments.verbose]. *)
Definition main_after_parse {A} (w : world) (verbose : string) (call : M A)
  : M (option A) :=
  level <~ lift (getattr_logging w (YStr (uppercase verbose))) ;;
  _ <~ setup_logging w level "logging.yaml" ;;
  dispatch call.

(** ** Vocabulary of the statements *)

(** The names of the handlers, in the order of the document. *)
Definition handler_names (configfile : yaml) : result (list string) :=
  hs <- getitem configfile "handlers" ;;
  keys hs.

(** [configfile['handlers'][handler]['level']] *)
Definition declared_level (configfile : yaml) (handler : string) : result yaml :=
  h <- handler_of configfile handler ;;
  getitem h "level".

(** [configfile['root']['level']] *)
Definition root_level (configfile : yaml) : result yaml :=
  root <- getitem configfile "root" ;;
  getitem root "level".

(** The number a level of the document stands for: itself, or the constant
    of that name. *)
Definition level_value (w : world) (v : yaml) : option Z :=
  match v with
  | YInt n => Some n
  | YStr name => logging_attr w name
  | _ => None
  end.

(** The level of a handler as a number, when it has one. *)
Definition handler_level (w : world) (configfile : yaml) (handler : string) : option Z :=
  match declared_level configfile handler with
  | Ok v => level_value w v
  | Raise _ => None
  end.

(** A file handler is a handler whose description has a [filename] key. *)
Definition is_file_handler (configfile : yaml) (handler : string) : bool :=
  match has_filename configfile handler with
  | Ok b => b
  | Raise _ => false
  end.

(** The declared levels of the file handlers among [names]. *)
Definition file_handler_levels (w : world) (configfile : yaml) (names : list string)
  : list Z :=
  flat_map
    (fun h =>
       if is_file_handler configfile h then
         match declared_level configfile h with
         | Ok name =>
             match getattr_logging w name with
             | Ok n => [n]
             | Raise _ => []
             end
         | Raise _ => []
         end
       else [])
    names.

(** The spec's EffectiveVerbosity: the minimum of the requested level, the
    declared root level and the declared levels of the file handlers. *)
Definition effective_verbosity (requested declared_root : Z) (file_levels : list Z) : Z :=
  fold_left Z.min file_levels (Z.min requested declared_root).

(** The invariant in its widest reading: after a bootstrap that activated the
    document, the root level is at most the level of every handler. *)
Definition root_below_every_handler (w : world) (requested : Z) : Prop :=
  forall s s' configfile,
    active s = Unconfigured ->
    setup_logging w requested "logging.yaml" s = (s', Ok tt) ->
    active s' = DictConfigured configfile ->
    forall handler level,
      handler_level w configfile handler = Some level ->
      exists ev, root_level configfile = Ok (YInt ev) /\ ev <= level.

(** Two documents that agree on everything the level computation reads. *)
Definition same_levels (c0 c : yaml) : Prop :=
  getitem c "root" = getitem c0 "root"
  /\ handler_names c = handler_names c0
  /\ (forall h, has_filename c h = has_filename c0 h)
  /\ (forall h, declared_level c h = declared_level c0 h).

(** The two records [main] hands to the logger in its [except] clause. *)
Definition failure_records (exc : exn) : list log_record :=
  [ {| levelno := ERROR;
       message := "Operation failed with " ++ class_name (exc_type exc)
                  ++ ": " ++ exc_str exc;
       exc_info := false |};
    {| levelno := DEBUG; message := exc_str exc; exc_info := true |} ].

(** An exception of the engine is absorbed: it is logged with the two
    records and [main] returns [None]. *)
Definition absorbed (exc : exn) : Prop :=
  forall (call : M Z) s s',
    call s = (s', Raise exc) ->
    exists s'',
      dispatch call s = (s'', Ok None)
      /\ log_calls s'' = (log_calls s' ++ failure_records exc)%list.

(** The four tokens that make the action optional. *)
Definition version_or_release (argv : list string) : Prop :=
  In "-V" argv \/ In "--version" argv \/ In "-R" argv \/ In "--release-info" argv.

(** The state after the way through the basic configuration: the lines are
    printed and [basicConfig] has run. *)
Definition fell_back (lines : list string) (requested : Z) (s : state) : state :=
  {| stdout := stdout s ++ lines;
     active := match active s with
               | Unconfigured => BasicConfigured requested
               | c => c
               end;
     created_dirs := created_dirs s;
     log_calls := log_calls s |}.

(** ** Sample worlds *)

(** A process without the environment variable, in which the configuration
    file exists, [safe_load] gives [doc], and neither [mkdir] nor
    [dictConfig] fails. *)
Definition world_of (doc : result yaml) : world :=
  {| getenv := None;
     module_dir := "/opt/pymcuprog";
     path_exists := fun _ => true;
     load := fun _ => doc;
     log_dir := "/home/dev/.cache/pymcuprog/log";
     mkdir_error := fun _ => None;
     dictConfig_error := fun _ => None;
     logging_attr := logging_levels;
     logging_object := logging_functions |}.

(** The same process without a configuration file. *)
Definition world_without_file : world :=
  {| getenv := Some "/etc/missing.yaml";
     module_dir := "/opt/pymcuprog";
     path_exists := fun _ => false;
     load := fun _ => Raise (Exn OSError "No such file or directory");
     log_dir := "/home/dev/.cache/pymcuprog/log";
     mkdir_error := fun _ => None;
     dictConfig_error := fun _ => None;
     logging_attr := logging_levels;
     logging_object := logging_functions |}.

(** A console handler and a file handler at [ERROR], root at [WARNING]. *)
Definition console_and_file : yaml :=
  YMap [("version", YInt 1);
        ("handlers",
         YMap [("console", YMap [("class", YStr "logging.StreamHandler");
                                 ("level", YStr "WARNING")]);
               ("logfile", YMap [("class", YStr "logging.FileHandler");
                                 ("filename", YStr "pymcuprog.log");
                                 ("level", YStr "ERROR")])]);
        ("root", YMap [("level", YStr "WARNING");
                       ("handlers", YSeq [YStr "console"; YStr "logfile"])])].

(** A console handler and a second stream handler at [DEBUG], no file
    handler, root at [WARNING]. *)
Definition console_and_syslog : yaml :=
  YMap [("version", YInt 1);
        ("handlers",
         YMap [("console", YMap [("class", YStr "logging.StreamHandler");
                                 ("level", YStr "WARNING")]);
               ("syslog", YMap [("class", YStr "logging.handlers.SysLogHandler");
                                ("level", YStr "DEBUG")])]);
        ("root", YMap [("level", YStr "WARNING");
                       ("handlers", YSeq [YStr "console"; YStr "syslog"])])].

(** A document without the [handlers] key. *)
Definition root_only : yaml :=
  YMap [("version", YInt 1); ("root", YMap [("level", YStr "INFO")])].

(** ** Further vocabulary *)

(** [int(x)], the [type] of [--bytes]: a decimal literal, where leading zeros
    are allowed and no base prefix is. *)
Definition int10_literal (s : string) : option Z :=
  match strip s with
  | String c body =>
      if Ascii.eqb c "-" then option_map Z.opp (digits 10 body)
      else if Ascii.eqb c "+" then digits 10 body
      else digits 10 (String c body)
  | EmptyString => None
  end.

Definition py_int (x : string) : result Z :=
  match int10_literal x with
  | Some n => Ok n
  | None =>
      Raise (Exn ValueError ("invalid literal for int() with base 10: '" ++ x ++ "'"))
  end.

(** [type=lambda x: int(x, 0)] of [--offset] and [type=int] of [--bytes]. *)
Definition offset_type (x : string) : result Z := py_int0 x.
Definition bytes_type (x : string) : result Z := py_int x.

(** [configfile['handlers'][handler]['filename']] *)
Definition filename_of (configfile : yaml) (handler : string) : result yaml :=
  h <- handler_of configfile handler ;;
  getitem h "filename".

(** The state after [Path(logdir).mkdir(exist_ok=True, parents=True)]. *)
Definition with_dir (logdir : string) (s : state) : state :=
  {| stdout := stdout s; active := active s;
     created_dirs := if mem logdir (created_dirs s) then created_dirs s
                     else created_dirs s ++ [logdir];
     log_calls := log_calls s |}.

(** [sys.exit(main())] when [main] returns: [None] is the exit status zero,
    an integer is the exit status. *)
Definition sys_exit (returned : option Z) : Z :=
  match returned with
  | None => 0
  | Some status => status
  end.

(** The script: [main] from the parse on, then [sys.exit] on what it
    returned.  An exception that leaves [main] is kept as it is. *)
Definition script (w : world) (verbose : string) (call : M Z) : M Z :=
  returned <~ main_after_parse w verbose call ;;
  ret (sys_exit returned).

(** The document that is active in a state, if one is. *)
Definition activated_document (s : state) : yaml :=
  match active s with
  | DictConfigured c => c
  | _ => YNull
  end.

(** The state in which [setup_logging] leaves the fresh process. *)
Definition after_setup (w : world) (requested : Z) : state :=
  fst (setup_logging w requested "logging.yaml" initial_state).

(** A process in which the log directory cannot be created. *)
Definition world_read_only (doc : yaml) : world :=
  {| getenv := None;
     module_dir := "/opt/pymcuprog";
     path_exists := fun _ => true;
     load := fun _ => Ok doc;
     log_dir := "/home/dev/.cache/pymcuprog/log";
     mkdir_error := fun _ => Some (Exn OSError "Permission denied");
     dictConfig_error := fun _ => None;
     logging_attr := logging_levels;
     logging_object := logging_functions |}.

(** ** Further sample documents *)

(** A file handler with an absolute file name beside the console handler. *)
Definition absolute_file : yaml :=
  YMap [("version", YInt 1);
        ("handlers",
         YMap [("console", YMap [("class", YStr "logging.StreamHandler");
                                 ("level", YStr "WARNING")]);
               ("logfile", YMap [("class", YStr "logging.FileHandler");
                                 ("filename", YStr "/var/log/pymcuprog.log");
                                 ("level", YStr "DEBUG")])]);
        ("root", YMap [("level", YStr "WARNING");
                       ("handlers", YSeq [YStr "console"; YStr "logfile"])])].

(** A file handler and no console handler. *)
Definition file_only : yaml :=
  YMap [("version", YInt 1);
        ("handlers",
         YMap [("logfile", YMap [("class", YStr "logging.FileHandler");
                                 ("filename", YStr "pymcuprog.log");
                                 ("level", YStr "DEBUG")])]);
        ("root", YMap [("level", YStr "WARNING");
                       ("handlers", YSeq [YStr "logfile"])])].

(** A root level that is not a constant of [logging]. *)
Definition unknown_root : yaml :=
  YMap [("version", YInt 1);
        ("handlers",
         YMap [("console", YMap [("class", YStr "logging.StreamHandler");
                                 ("level", YStr "WARNING")])]);
        ("root", YMap [("level", YStr "VERBOSE");
                       ("handlers", YSeq [YStr "console"])])].

(** * Properties of the literal parsers *)

Section Split.

Lemma split_nonempty (s : string) : split colon s <> [].
Proof.
  destruct s as [|c s]; simpl; [discriminate|].
  destruct (Ascii.eqb c colon); [discriminate|].
  destruct (split colon s); discriminate.
Qed.

(** A text without the separator is its own single segment. *)
Lemma split_no_colon (s : string) :
  contains colon s = false -> split colon s = [s].
Proof.
  induction s as [|c s IH]; simpl; intros H; [reflexivity|].
  apply orb_false_iff in H as [Hc Hs].
  rewrite Hc, (IH Hs). reflexivity.
Qed.

(** The first segment ends at the first separator. *)
Lemma split_app_colon (a r : string) :
  contains colon a = false ->
  split colon (a ++ String colon r) = a :: split colon r.
Proof.
  induction a as [|c a IH]; simpl; intros H.
  - reflexivity.
  - apply orb_false_iff in H as [Hc Ha].
    rewrite Hc, (IH Ha). reflexivity.
Qed.

Lemma contains_app_colon (a r : string) :
  contains colon (a ++ String colon r) = true.
Proof.
  induction a as [|c a IH]; simpl.
  - reflexivity.
  - rewrite IH. apply orb_true_r.
Qed.

(** With a separator there are at least two segments, and conversely. *)
Lemma contains_split (s : string) :
  contains colon s = true <-> exists a b rest, split colon s = a :: b :: rest.
Proof.
  induction s as [|c s IH]; simpl.
  - split; [discriminate | intros (a & b & rest & H); discriminate].
  - destruct (Ascii.eqb c colon) eqn:Hc; simpl.
    + split; [intros _ | reflexivity].
      destruct (split colon s) as [|b rest] eqn:Hs.
      * elim (split_nonempty s Hs).
      * exists EmptyString, b, rest. reflexivity.
    + rewrite IH. split.
      * intros (a & b & rest & H). rewrite H. eauto.
      * intros (a & b & rest & H).
        destruct (split colon s) as [|a' [|b' rest']] eqn:Hs;
          try discriminate.
        eauto.
Qed.

Lemma split_two_contains (s a b : string) (rest : list string) :
  split colon s = a :: b :: rest -> contains colon s = true.
Proof. intros H. apply contains_split. eauto. Qed.

(** The segments themselves hold no separator. *)
Lemma split_segments_clean (s : string) :
  Forall (fun seg => contains colon seg = false) (split colon s).
Proof.
  induction s as [|c s IH]; simpl.
  - constructor; [reflexivity | constructor].
  - destruct (Ascii.eqb c colon) eqn:Hc.
    + constructor; [reflexivity | exact IH].
    + destruct (split colon s) as [|seg rest].
      * constructor; [simpl; rewrite Hc; reflexivity | constructor].
      * inversion IH; subst. constructor; [simpl; rewrite Hc | ]; assumption.
Qed.

(** A text is its segments put together again with the separator. *)
Lemma split_first_two (s a b : string) (rest : list string) :
  split colon s = a :: b :: rest ->
  exists r, s = a ++ String colon r /\ split colon r = b :: rest.
Proof.
  revert a. induction s as [|c s IH]; simpl; intros a H; [discriminate|].
  destruct (Ascii.eqb c colon) eqn:Hc.
  - injection H as <- Hs. apply Ascii.eqb_eq in Hc. subst c.
    exists s. split; [reflexivity | assumption].
  - destruct (split colon s) as [|a' tl] eqn:Hs; [discriminate|].
    injection H as <- ->.
    destruct (IH a' eq_refl) as (r & -> & Hr).
    exists r. split; [reflexivity | assumption].
Qed.

End Split.

Section IntegerText.

Lemma space_not_colon (c : ascii) : is_space c = true -> Ascii.eqb c colon = false.
Proof.
  intros H. destruct (Ascii.eqb c colon) eqn:E; [|reflexivity].
  apply Ascii.eqb_eq in E. subst c. discriminate H.
Qed.

Lemma lstrip_contains (s : string) :
  contains colon (lstrip s) = contains colon s.
Proof.
  induction s as [|c s IH]; simpl; [reflexivity|].
  destruct (is_space c) eqn:Hsp; [|reflexivity].
  rewrite (space_not_colon c Hsp). exact IH.
Qed.

Lemma rstrip_contains (s : string) :
  contains colon (rstrip s) = contains colon s.
Proof.
  induction s as [|c s IH]; simpl; [reflexivity|].
  destruct (rstrip s) as [|d r] eqn:Hr.
  - simpl in IH. rewrite <- IH.
    destruct (is_space c) eqn:Hsp; simpl.
    + rewrite (space_not_colon c Hsp). reflexivity.
    + reflexivity.
  - rewrite <- IH. reflexivity.
Qed.

Lemma strip_contains (s : string) :
  contains colon (strip s) = contains colon s.
Proof. unfold strip. rewrite rstrip_contains. apply lstrip_contains. Qed.

Lemma digit_not_colon (c : ascii) (d : Z) :
  digit_value c = Some d -> Ascii.eqb c colon = false.
Proof.
  intros H. destruct (Ascii.eqb c colon) eqn:E; [|reflexivity].
  apply Ascii.eqb_eq in E. subst c. discriminate H.
Qed.

Lemma underscore_not_colon (c : ascii) :
  Ascii.eqb c underscore = true -> Ascii.eqb c colon = false.
Proof.
  intros H. apply Ascii.eqb_eq in H. subst c. reflexivity.
Qed.

Lemma digits_value_clean (base : Z) (s : string) :
  forall acc p v, digits_value base acc p s = Some v -> contains colon s = false.
Proof.
  induction s as [|c s IH]; simpl; intros acc p v H; [reflexivity|].
  destruct (Ascii.eqb c underscore) eqn:Hu.
  - rewrite (underscore_not_colon c Hu). simpl.
    destruct p; [discriminate|]. eapply IH; eassumption.
  - destruct (digit_value c) as [d|] eqn:Hd; [|discriminate].
    rewrite (digit_not_colon c d Hd). simpl.
    destruct (d <? base); [|discriminate]. eapply IH; eassumption.
Qed.

Lemma digits_clean (base : Z) (s : string) (v : Z) :
  digits base s = Some v -> contains colon s = false.
Proof.
  destruct s as [|c s]; [discriminate|]. unfold digits.
  destruct (Ascii.eqb c underscore); [discriminate|].
  apply digits_value_clean.
Qed.

Lemma prefixed_clean (base : Z) (s : string) (v : Z) :
  prefixed base s = Some v -> contains colon s = false.
Proof.
  destruct s as [|c r]; [discriminate|]. unfold prefixed.
  destruct (Ascii.eqb c underscore) eqn:Hu.
  - intros H. simpl. rewrite (underscore_not_colon c Hu).
    simpl. eapply digits_clean; eassumption.
  - apply digits_clean.
Qed.

Lemma is_char_not_colon (a b : string) (c : ascii) :
  is_char a b c = true ->
  contains colon a = false -> contains colon b = false ->
  Ascii.eqb c colon = false.
Proof.
  unfold is_char. intros H Ha Hb.
  apply orb_true_iff in H as [H|H]; apply String.eqb_eq in H; subst;
    simpl in *; [apply orb_false_iff in Ha as [Ha _] | apply orb_false_iff in Hb as [Hb _]];
    assumption.
Qed.

Lemma unsigned_literal_clean (body : string) (v : Z) :
  unsigned_literal body = Some v -> contains colon body = false.
Proof.
  unfold unsigned_literal.
  destruct body as [|z [|c r]]; try apply digits_clean.
  destruct (Ascii.eqb z "0") eqn:H0; simpl negb; cbv iota; [|apply digits_clean].
  apply Ascii.eqb_eq in H0. subst z.
  destruct (is_char "x" "X" c) eqn:Hx;
    [|destruct (is_char "o" "O" c) eqn:Ho;
      [|destruct (is_char "b" "B" c) eqn:Hb]].
  - intros H. simpl.
    rewrite (is_char_not_colon _ _ _ Hx eq_refl eq_refl).
    simpl. eapply prefixed_clean; eassumption.
  - intros H. simpl.
    rewrite (is_char_not_colon _ _ _ Ho eq_refl eq_refl).
    simpl. eapply prefixed_clean; eassumption.
  - intros H. simpl.
    rewrite (is_char_not_colon _ _ _ Hb eq_refl eq_refl).
    simpl. eapply prefixed_clean; eassumption.
  - destruct (digits 10 (String "0" (String c r))) as [z|] eqn:Hd; [|discriminate].
    intros _. eapply digits_clean; eassumption.
Qed.

(** A valid integer literal holds no separator. *)
Lemma int_literal_clean (s : string) (v : Z) :
  int_literal s = Some v -> contains colon s = false.
Proof.
  unfold int_literal. intros H. rewrite <- strip_contains.
  destruct (strip s) as [|c body]; [discriminate|].
  destruct (Ascii.eqb c "-") eqn:Hm.
  - apply Ascii.eqb_eq in Hm. subst c. simpl.
    destruct (unsigned_literal body) as [u|] eqn:Hu; [|discriminate].
    eapply unsigned_literal_clean; eassumption.
  - destruct (Ascii.eqb c "+") eqn:Hp.
    + apply Ascii.eqb_eq in Hp. subst c. simpl.
      eapply unsigned_literal_clean; eassumption.
    + eapply unsigned_literal_clean; eassumption.
Qed.

End IntegerText.

Section Parsers.

Lemma parse_literal_colon (t : string) :
  contains colon t = true -> _parse_literal t = ints_of (split colon t).
Proof. intros H. unfold _parse_literal. rewrite H. reflexivity. Qed.

Lemma parse_direct_colon (t : string) :
  contains colon t = true ->
  _parse_direct t =
  except_ValueError (ints_of (split colon t)) (floats_of (split colon t)).
Proof. intros H. unfold _parse_direct. rewrite H. reflexivity. Qed.

Lemma ints_of_ok (a b : string) (rest : list string) (x y : Z) :
  int_literal a = Some x -> int_literal b = Some y ->
  ints_of (a :: b :: rest) = Ok (VList [VInt x; VInt y]).
Proof.
  intros Ha Hb. unfold ints_of, py_int0. simpl. rewrite Ha. simpl.
  rewrite Hb. reflexivity.
Qed.

Lemma ints_of_fails (a b : string) (rest : list string) :
  int_literal a = None \/ int_literal b = None ->
  raises (ints_of (a :: b :: rest)) ValueError.
Proof.
  intros H. unfold ints_of, py_int0, raises. simpl.
  destruct (int_literal a) as [x|] eqn:Ha; simpl.
  - destruct H as [H|H]; [discriminate|]. rewrite H. simpl. eauto.
  - eauto.
Qed.

Lemma floats_of_ok (a b : string) (rest : list string) (f g : pyfloat) :
  float_literal a = Some f -> float_literal b = Some g ->
  floats_of (a :: b :: rest) = Ok (VList [VFloat f; VFloat g]).
Proof.
  intros Ha Hb. unfold floats_of, py_float. simpl. rewrite Ha. simpl.
  rewrite Hb. reflexivity.
Qed.

Lemma floats_of_fails (a b : string) (rest : list string) :
  float_literal a = None \/ float_literal b = None ->
  raises (floats_of (a :: b :: rest)) ValueError.
Proof.
  intros H. unfold floats_of, py_float, raises. simpl.
  destruct (float_literal a) as [x|] eqn:Ha; simpl.
  - destruct H as [H|H]; [discriminate|]. rewrite H. simpl. eauto.
  - eauto.
Qed.

Lemma except_ValueError_handled {A} (r h : result A) :
  raises r ValueError -> except_ValueError r h = h.
Proof. intros (e & -> & He). unfold except_ValueError. rewrite He. reflexivity. Qed.

(** The fallback of [_parse_direct]: both segments become floats. *)
Lemma parse_direct_floats (t a b : string) (rest : list string) (f g : pyfloat) :
  split colon t = a :: b :: rest ->
  int_literal a = None \/ int_literal b = None ->
  float_literal a = Some f -> float_literal b = Some g ->
  _parse_direct t = Ok (VList [VFloat f; VFloat g]).
Proof.
  intros Hs Hi Hf Hg.
  rewrite (parse_direct_colon t (split_two_contains _ _ _ _ Hs)), Hs.
  rewrite (except_ValueError_handled _ _ (ints_of_fails a b rest Hi)).
  apply floats_of_ok; assumption.
Qed.

(** Only the first two segments are looked at. *)
Lemma ints_of_first_two (a b : string) (rest rest' : list string) :
  ints_of (a :: b :: rest) = ints_of (a :: b :: rest').
Proof. reflexivity. Qed.

Lemma floats_of_first_two (a b : string) (rest rest' : list string) :
  floats_of (a :: b :: rest) = floats_of (a :: b :: rest').
Proof. reflexivity. Qed.

(** The segments of [a:b...] when [a] holds no separator. *)
Lemma split_pair (a b : string) :
  contains colon a = false -> contains colon b = false ->
  split colon (a ++ String colon b) = [a; b].
Proof.
  intros Ha Hb. rewrite (split_app_colon a b Ha), (split_no_colon b Hb).
  reflexivity.
Qed.

Lemma split_triple (a b rest : string) :
  contains colon a = false -> contains colon b = false ->
  split colon (a ++ String colon (b ++ String colon rest))
  = a :: b :: split colon rest.
Proof.
  intros Ha Hb. rewrite (split_app_colon a _ Ha), (split_app_colon b _ Hb).
  reflexivity.
Qed.

(** ** C3 *)

(** C3: a plain token without a colon is converted by [_parse_literal] to its
    integer value when it is an integer literal of some base, otherwise to
    its floating-point value when it is a float literal, and otherwise the
    conversion ends with a [ValueError]. *)
Theorem parse_literal_scalar (t : string) :
  plain t = true ->
  contains colon t = false ->
  (forall n, int_literal t = Some n -> _parse_literal t = Ok (VInt n)) /\
  (forall f, int_literal t = None -> float_literal t = Some f ->
             _parse_literal t = Ok (VFloat f)) /\
  (int_literal t = None -> float_literal t = None ->
   raises (_parse_literal t) ValueError).
Proof.
  intros _ Hc. unfold _parse_literal, py_int0, py_float. rewrite Hc.
  repeat split.
  - intros n Hn. rewrite Hn. reflexivity.
  - intros f Hi Hf. rewrite Hi, Hf. reflexivity.
  - intros Hi Hf. rewrite Hi, Hf. simpl. eexists. split; reflexivity.
Qed.

Lemma parse_literal_scalar_witness :
  contains colon "0x10" = false /\ _parse_literal "0x10" = Ok (VInt 16)
  /\ contains colon "3.5" = false
  /\ _parse_literal "3.5" = Ok (VFloat (FDec false 35 (-1))).
Proof.
  split; [reflexivity|]. split.
  - apply (proj1 (parse_literal_scalar "0x10" eq_refl eq_refl)). reflexivity.
  - split; [reflexivity|].
    apply (proj1 (proj2 (parse_literal_scalar "3.5" eq_refl eq_refl))); reflexivity.
Defined.

Example parse_literal_neither :
  raises (_parse_literal "0x1g") ValueError /\ raises (_parse_literal "volt") ValueError.
Proof. split; eexists; split; reflexivity. Qed.

(** ** C4 *)

(** C4: for two plain integer literals [a] and [b], [_parse_literal] turns
    the token [a:b] into the list of the two integers, in this order. *)
Theorem parse_literal_pair (a b : string) (x y : Z) :
  plain a = true -> plain b = true ->
  int_literal a = Some x -> int_literal b = Some y ->
  _parse_literal (a ++ String colon b) = Ok (VList [VInt x; VInt y]).
Proof.
  intros _ _ Ha Hb.
  rewrite parse_literal_colon by apply contains_app_colon.
  rewrite split_pair by (eapply int_literal_clean; eassumption).
  apply ints_of_ok; assumption.
Qed.

Lemma parse_literal_pair_witness :
  _parse_literal "4:0x10" = Ok (VList [VInt 4; VInt 16]).
Proof.
  exact (parse_literal_pair "4" "0x10" 4 16 eq_refl eq_refl eq_refl eq_refl).
Defined.

(** ** C5 *)

(** C5: on a plain token with a colon, [_parse_direct] converts the first two
    segments to integers and returns them; when one of the two is not an
    integer literal, both are converted to floats instead, also the one that
    is an integer literal; when that fails too the [ValueError] of the float
    conversion leaves the function. *)
Theorem parse_direct_pair (t : string) :
  plain t = true ->
  contains colon t = true ->
  exists a b rest,
    split colon t = a :: b :: rest /\
    (forall x y, int_literal a = Some x -> int_literal b = Some y ->
                 _parse_direct t = Ok (VList [VInt x; VInt y])) /\
    (int_literal a = None \/ int_literal b = None ->
     forall f g, float_literal a = Some f -> float_literal b = Some g ->
                 _parse_direct t = Ok (VList [VFloat f; VFloat g])) /\
    (int_literal a = None \/ int_literal b = None ->
     float_literal a = None \/ float_literal b = None ->
     raises (_parse_direct t) ValueError).
Proof.
  intros _ Hc. destruct (proj1 (contains_split t) Hc) as (a & b & rest & Hs).
  exists a, b, rest. split; [exact Hs|].
  rewrite (parse_direct_colon t Hc), Hs.
  repeat split.
  - intros x y Ha Hb. rewrite (ints_of_ok a b rest x y Ha Hb). reflexivity.
  - intros Hi f g Hf Hg.
    rewrite <- Hs, <- (parse_direct_colon t Hc).
    eapply parse_direct_floats; eassumption.
  - intros Hi Hf.
    rewrite (except_ValueError_handled _ _ (ints_of_fails a b rest Hi)).
    apply floats_of_fails; assumption.
Qed.

Lemma parse_direct_pair_witness :
  _parse_direct "1:0xe0" = Ok (VList [VInt 1; VInt 224])
  /\ _parse_direct "4:3.5"
     = Ok (VList [VFloat (FDec false 4 0); VFloat (FDec false 35 (-1))]).
Proof.
  split.
  - destruct (parse_direct_pair "1:0xe0" eq_refl eq_refl)
      as (a & b & rest & Hs & H & _).
    injection Hs as <- <- <-. apply H; reflexivity.
  - destruct (parse_direct_pair "4:3.5" eq_refl eq_refl)
      as (a & b & rest & Hs & _ & H & _).
    injection Hs as <- <- <-. apply H; [right|..]; reflexivity.
Defined.

(** ** C6 *)

(** C6: on a token without a colon [_parse_direct] returns [None]; it neither
    raises nor converts the token to a number. *)
Theorem parse_direct_no_colon (t : string) :
  contains colon t = false -> _parse_direct t = Ok VNone.
Proof. intros H. unfold _parse_direct. rewrite H. reflexivity. Qed.

Lemma parse_direct_no_colon_witness :
  _parse_direct "0x10" = Ok VNone.
Proof. exact (parse_direct_no_colon "0x10" eq_refl). Defined.

(** ** C9 *)

(** C9: with two colons or more, both converters split at every colon and
    look at the first two segments only: the token [a:b:rest] is converted
    like [a:b], whatever [rest] is, and gives the pair of integers when [a]
    and [b] are plain integer literals. *)
Theorem later_segments_discarded (a b rest : string) :
  contains colon a = false -> contains colon b = false ->
  _parse_literal (a ++ String colon (b ++ String colon rest))
    = _parse_literal (a ++ String colon b) /\
  _parse_direct (a ++ String colon (b ++ String colon rest))
    = _parse_direct (a ++ String colon b) /\
  (forall x y, plain a = true -> plain b = true ->
     int_literal a = Some x -> int_literal b = Some y ->
     _parse_literal (a ++ String colon (b ++ String colon rest))
       = Ok (VList [VInt x; VInt y]) /\
     _parse_direct (a ++ String colon (b ++ String colon rest))
       = Ok (VList [VInt x; VInt y])).
Proof.
  intros Ha Hb.
  rewrite !parse_literal_colon, !parse_direct_colon by apply contains_app_colon.
  rewrite (split_triple a b rest Ha Hb), (split_pair a b Ha Hb).
  split; [reflexivity|]. split; [reflexivity|].
  intros x y _ _ Hx Hy.
  rewrite (ints_of_ok a b _ x y Hx Hy). split; reflexivity.
Qed.

Lemma later_segments_discarded_witness :
  _parse_literal "1:2:3" = Ok (VList [VInt 1; VInt 2])
  /\ _parse_direct "1:2:3" = Ok (VList [VInt 1; VInt 2]).
Proof.
  exact (proj2 (proj2 (later_segments_discarded "1" "2" "3" eq_refl eq_refl))
               1 2 eq_refl eq_refl eq_refl eq_refl).
Defined.

(** Every token with two colons or more has the shape used above. *)
Lemma three_segments_shape (t a b c : string) (rest : list string) :
  split colon t = a :: b :: c :: rest ->
  exists r, t = a ++ String colon (b ++ String colon r)
            /\ contains colon a = false /\ contains colon b = false.
Proof.
  intros H.
  pose proof (split_segments_clean t) as Hcl. rewrite H in Hcl.
  inversion Hcl as [|? ? Ha Hcl']; subst.
  inversion Hcl' as [|? ? Hb _]; subst.
  destruct (split_first_two t a b (c :: rest) H) as (r & -> & Hr).
  destruct (split_first_two r b c rest Hr) as (r' & -> & _).
  exists r'. repeat split; assumption.
Qed.

(** A split at the first colon only would make ["1:2:3"] fail. *)
Example split_at_first_differs :
  split_at_first colon "1:2:3" = ["1"; "2:3"]
  /\ raises (ints_of (split_at_first colon "1:2:3")) ValueError.
Proof. split; [reflexivity | eexists; split; reflexivity]. Qed.

(** ** C10 *)

(** C10: in [_parse_literal] the colon branch has no float conversion: on a
    plain token with a colon, when one of the first two segments is not an integer
    literal the function ends with a [ValueError], also when both segments
    are float literals, for which [_parse_direct] returns the pair of
    floats. *)
Theorem parse_literal_pair_no_float (t : string) :
  plain t = true ->
  contains colon t = true ->
  exists a b rest,
    split colon t = a :: b :: rest /\
    (int_literal a = None \/ int_literal b = None ->
     raises (_parse_literal t) ValueError /\
     (forall f g, float_literal a = Some f -> float_literal b = Some g ->
                  _parse_direct t = Ok (VList [VFloat f; VFloat g]))).
Proof.
  intros _ Hc. destruct (proj1 (contains_split t) Hc) as (a & b & rest & Hs).
  exists a, b, rest. split; [exact Hs|]. intros Hi. split.
  - rewrite (parse_literal_colon t Hc), Hs.
    apply ints_of_fails. assumption.
  - intros f g. apply (parse_direct_floats t a b rest f g Hs Hi).
Qed.

Lemma parse_literal_pair_no_float_witness :
  raises (_parse_literal "3.5:4") ValueError
  /\ _parse_direct "3.5:4"
     = Ok (VList [VFloat (FDec false 35 (-1)); VFloat (FDec false 4 0)]).
Proof.
  destruct (parse_literal_pair_no_float "3.5:4" eq_refl eq_refl)
    as (a & b & rest & Hs & H).
  injection Hs as <- <- <-.
  destruct (H (or_introl eq_refl)) as [H1 H2].
  split; [exact H1 | apply H2; reflexivity].
Defined.

End Parsers.

(** * Properties of [main] *)

Section Main.

Lemma mem_In (k : string) (ks : list string) : mem k ks = true <-> In k ks.
Proof.
  unfold mem. rewrite existsb_exists. split.
  - intros (x & Hin & Heq). apply String.eqb_eq in Heq. subst. assumption.
  - intros Hin. exists k. split; [assumption | apply String.eqb_refl].
Qed.

Lemma nargs_flags (argv : list string) :
  mem "-V" argv || mem "--version" argv || mem "-R" argv || mem "--release-info" argv
  = true <-> version_or_release argv.
Proof.
  unfold version_or_release.
  rewrite !orb_true_iff, !mem_In. tauto.
Qed.

(** ** C8 *)

(** C8: the [action] positional has the default [ping]; it is declared with
    [nargs="?"], so that it may be left out (and is then [ping]), exactly
    when one of the tokens of [sys.argv] is [-V], [--version], [-R] or
    [--release-info]; otherwise it is declared without [nargs] and leaving it
    out is a usage error.  The decision reads the raw tokens only. *)
Theorem action_optional_iff_version_or_release (argv : list string) :
  default (action_argument argv) = "ping"
  /\ (nargs (action_argument argv) = Some "?" <-> version_or_release argv)
  /\ (nargs (action_argument argv) = None <-> ~ version_or_release argv)
  /\ (parse_positional (action_argument argv) None = Ok "ping"
      <-> version_or_release argv)
  /\ (~ version_or_release argv ->
      raises (parse_positional (action_argument argv) None) SystemExit).
Proof.
  pose proof (nargs_flags argv) as Hf.
  unfold action_argument, parse_positional. simpl.
  destruct (mem "-V" argv || mem "--version" argv || mem "-R" argv
            || mem "--release-info" argv); simpl.
  - assert (Hv : version_or_release argv) by (apply Hf; reflexivity).
    split; [reflexivity|]. split; [tauto|]. split; [|split; [tauto|]].
    + split; [discriminate | tauto].
    + intros Hn. elim (Hn Hv).
  - assert (Hv : ~ version_or_release argv).
    { intros H. apply Hf in H. discriminate. }
    split; [reflexivity|]. split; [|split; [tauto|split]].
    + split; [discriminate | tauto].
    + split; [discriminate | tauto].
    + intros _. eexists. split; reflexivity.
Qed.

Example action_may_be_omitted :
  parse_positional (action_argument ["pymcuprog"; "-V"]) None = Ok "ping"
  /\ raises (parse_positional (action_argument ["pymcuprog"; "-d"; "atmega4809"]) None)
            SystemExit
  /\ raises (parse_positional (action_argument ["pymcuprog"; "-xV"]) None) SystemExit
  /\ parse_positional (action_argument ["pymcuprog"; "erase"]) (Some "erase") = Ok "erase".
Proof.
  repeat split; try reflexivity; eexists; split; reflexivity.
Qed.

(** ** C7 *)

Lemma dispatch_raise {A} (call : M A) (s s' : state) (exc : exn) :
  call s = (s', Raise exc) ->
  dispatch call s =
  if isinstance_Exception (exc_type exc)
  then ({| stdout := stdout s'; active := active s';
           created_dirs := created_dirs s';
           log_calls := log_calls s' ++ failure_records exc |}, Ok None)
  else (s', Raise exc).
Proof.
  intros H. unfold dispatch. rewrite H.
  destruct (isinstance_Exception (exc_type exc)); [|reflexivity].
  unfold bindM, log, ret. simpl. rewrite <- app_assoc. reflexivity.
Qed.

(** C7, amended: an exception of the engine call whose class derives from
    [Exception] is caught in [main]: it is logged once at error severity with
    the name of its class and its message, once at debug severity with the
    traceback attached, and [main] returns [None] instead of raising. *)
Theorem engine_exception_logged (exc : exn) :
  isinstance_Exception (exc_type exc) = true -> absorbed exc.
Proof.
  intros Hi call s s' Hcall.
  rewrite (dispatch_raise call s s' exc Hcall), Hi.
  eexists. split; reflexivity.
Qed.

Lemma engine_exception_logged_witness :
  absorbed (Exn RuntimeError "no tool found").
Proof. exact (engine_exception_logged (Exn RuntimeError "no tool found") eq_refl). Defined.

(** An exception outside [Exception] leaves [main], and nothing is logged. *)
Lemma base_exception_propagates {A} (call : M A) (s s' : state) (exc : exn) :
  isinstance_Exception (exc_type exc) = false ->
  call s = (s', Raise exc) ->
  dispatch call s = (s', Raise exc).
Proof.
  intros Hi Hcall. rewrite (dispatch_raise call s s' exc Hcall), Hi. reflexivity.
Qed.

(** C7 as stated fails: a [KeyboardInterrupt] raised by the engine call is not
    absorbed. *)
Lemma keyboard_interrupt_not_absorbed :
  ~ absorbed (Exn KeyboardInterrupt "Ctrl-C").
Proof.
  intros H.
  destruct (H (lift (Raise (Exn KeyboardInterrupt "Ctrl-C"))) initial_state initial_state
              eq_refl) as (s'' & Hd & _).
  discriminate Hd.
Qed.

Example engine_result_returned :
  dispatch (ret 0) initial_state = (initial_state, Ok (Some 0)).
Proof. reflexivity. Qed.

End Main.

(** * Properties of [setup_logging] *)

Section Dictionaries.

Context {A : Type}.

Lemma assoc_set_same (k : string) (v : A) (kvs : list (string * A)) :
  assoc k (assoc_set k v kvs) = Some v.
Proof.
  induction kvs as [|[k' v'] rest IH]; simpl.
  - rewrite String.eqb_refl. reflexivity.
  - destruct (String.eqb k k') eqn:E; simpl; rewrite E; [reflexivity | exact IH].
Qed.

Lemma assoc_set_other (k k0 : string) (v : A) (kvs : list (string * A)) :
  k0 <> k -> assoc k0 (assoc_set k v kvs) = assoc k0 kvs.
Proof.
  intros Hne. induction kvs as [|[k' v'] rest IH]; simpl.
  - destruct (String.eqb_spec k0 k); [contradiction | reflexivity].
  - destruct (String.eqb_spec k k'); simpl.
    + subst k'. destruct (String.eqb_spec k0 k); [contradiction | reflexivity].
    + destruct (String.eqb k0 k'); [reflexivity | exact IH].
Qed.

(** Assigning to a key that is there leaves the order of the keys alone. *)
Lemma assoc_set_keys (k : string) (v v0 : A) (kvs : list (string * A)) :
  assoc k kvs = Some v0 -> map fst (assoc_set k v kvs) = map fst kvs.
Proof.
  induction kvs as [|[k' v'] rest IH]; simpl; [discriminate|].
  destruct (String.eqb k k'); simpl; [reflexivity|].
  intros H. rewrite (IH H). reflexivity.
Qed.

Lemma mem_keys_assoc (k : string) (kvs : list (string * A)) :
  mem k (map fst kvs) = match assoc k kvs with Some _ => true | None => false end.
Proof.
  induction kvs as [|[k' v'] rest IH]; simpl; [reflexivity|].
  destruct (String.eqb k k'); simpl; [reflexivity | exact IH].
Qed.

Lemma mem_keys_assoc_set (k k0 : string) (v : A) (kvs : list (string * A)) :
  k0 <> k -> mem k0 (map fst (assoc_set k v kvs)) = mem k0 (map fst kvs).
Proof.
  intros Hne. rewrite !mem_keys_assoc, assoc_set_other by assumption. reflexivity.
Qed.

Lemma assoc_In_keys (k : string) (v : A) (kvs : list (string * A)) :
  assoc k kvs = Some v -> In k (map fst kvs).
Proof.
  induction kvs as [|[k' v'] rest IH]; simpl; [discriminate|].
  destruct (String.eqb_spec k k'); [left; congruence | right; auto].
Qed.

End Dictionaries.

Section Reconciliation.

Variable w : world.

Lemma getitem_Ok (d : yaml) (k : string) (v : yaml) :
  getitem d k = Ok v -> exists kvs, d = YMap kvs /\ assoc k kvs = Some v.
Proof.
  destruct d; simpl; try discriminate.
  destruct (assoc k kvs) as [v'|] eqn:E; [|discriminate].
  intros [= <-]. eauto.
Qed.

Lemma setitem_Ok (d : yaml) (k : string) (v d' : yaml) :
  setitem d k v = Ok d' -> exists kvs, d = YMap kvs /\ d' = YMap (assoc_set k v kvs).
Proof.
  destruct d; simpl; try discriminate. intros [= <-]. eauto.
Qed.

Lemma handler_of_Ok (c : yaml) (h : string) (d : yaml) :
  handler_of c h = Ok d ->
  exists top hs, c = YMap top /\ assoc "handlers" top = Some (YMap hs)
                 /\ assoc h hs = Some d.
Proof.
  unfold handler_of.
  destruct (getitem c "handlers") as [hsv|e] eqn:E1; simpl; [|discriminate].
  intros E2.
  destruct (getitem_Ok _ _ _ E1) as (top & -> & Ht).
  destruct (getitem_Ok _ _ _ E2) as (hs & -> & Hh).
  eauto.
Qed.

(** What an assignment to a field of a handler changes. *)
Lemma set_handler_field_shape (c : yaml) (h k : string) (v c' : yaml) :
  set_handler_field c h k v = Ok c' ->
  exists top hs hd,
    c = YMap top /\ assoc "handlers" top = Some (YMap hs)
    /\ assoc h hs = Some (YMap hd)
    /\ c' = YMap (assoc_set "handlers"
                    (YMap (assoc_set h (YMap (assoc_set k v hd)) hs)) top).
Proof.
  unfold set_handler_field.
  destruct (getitem c "handlers") as [hsv|e] eqn:E1; simpl; [|discriminate].
  destruct (getitem hsv h) as [hv|e] eqn:E2; simpl; [|discriminate].
  destruct (setitem hv k v) as [hv'|e] eqn:E3; simpl; [|discriminate].
  destruct (getitem_Ok _ _ _ E1) as (top & -> & Ht).
  destruct (getitem_Ok _ _ _ E2) as (hs & -> & Hh).
  destruct (setitem_Ok _ _ _ _ E3) as (hd & -> & ->).
  simpl. intros [= <-]. exists top, hs, hd. auto.
Qed.

Lemma set_handler_field_root (c : yaml) (h k : string) (v c' : yaml) :
  set_handler_field c h k v = Ok c' -> getitem c' "root" = getitem c "root".
Proof.
  intros H. destruct (set_handler_field_shape _ _ _ _ _ H)
    as (top & hs & hd & -> & Ht & Hh & ->).
  simpl. rewrite assoc_set_other by discriminate. reflexivity.
Qed.

Lemma set_handler_field_names (c : yaml) (h k : string) (v c' : yaml) :
  set_handler_field c h k v = Ok c' -> handler_names c' = handler_names c.
Proof.
  intros H. destruct (set_handler_field_shape _ _ _ _ _ H)
    as (top & hs & hd & -> & Ht & Hh & ->).
  unfold handler_names. simpl. rewrite assoc_set_same, Ht. simpl.
  rewrite (assoc_set_keys h _ _ hs Hh). reflexivity.
Qed.

Lemma set_handler_field_other (c : yaml) (h k : string) (v c' : yaml) (h0 : string) :
  set_handler_field c h k v = Ok c' -> h0 <> h ->
  handler_of c' h0 = handler_of c h0.
Proof.
  intros H Hne. destruct (set_handler_field_shape _ _ _ _ _ H)
    as (top & hs & hd & -> & Ht & Hh & ->).
  unfold handler_of. simpl. rewrite assoc_set_same, Ht. simpl.
  rewrite assoc_set_other by assumption. reflexivity.
Qed.

Lemma set_handler_field_self (c : yaml) (h k : string) (v c' : yaml) :
  set_handler_field c h k v = Ok c' ->
  exists hd, handler_of c h = Ok (YMap hd)
             /\ handler_of c' h = Ok (YMap (assoc_set k v hd)).
Proof.
  intros H. destruct (set_handler_field_shape _ _ _ _ _ H)
    as (top & hs & hd & -> & Ht & Hh & ->).
  exists hd. unfold handler_of. simpl. rewrite assoc_set_same, Ht. simpl.
  rewrite assoc_set_same, Hh. auto.
Qed.

(** Assigning a field other than [filename] keeps the file handlers. *)
Lemma set_handler_field_has_filename (c : yaml) (h k : string) (v c' : yaml) :
  set_handler_field c h k v = Ok c' ->
  (k = "filename" -> has_filename c h = Ok true) ->
  forall h0, has_filename c' h0 = has_filename c h0.
Proof.
  intros H Hk h0. unfold has_filename.
  destruct (String.eqb_spec h0 h) as [->|Hne].
  - destruct (set_handler_field_self _ _ _ _ _ H) as (hd & H1 & H2).
    rewrite H1, H2. simpl.
    destruct (String.eqb_spec k "filename") as [->|Hkne].
    + specialize (Hk eq_refl). unfold has_filename in Hk.
      rewrite H1 in Hk. simpl in Hk. rewrite Hk.
      rewrite mem_keys_assoc, assoc_set_same. reflexivity.
    + rewrite mem_keys_assoc_set by congruence. reflexivity.
  - rewrite (set_handler_field_other _ _ _ _ _ h0 H Hne). reflexivity.
Qed.

Lemma set_handler_field_level_other (c : yaml) (h k : string) (v c' : yaml) :
  set_handler_field c h k v = Ok c' ->
  forall h0, (h0 <> h \/ k <> "level") ->
             declared_level c' h0 = declared_level c h0.
Proof.
  intros H h0 Hd. unfold declared_level.
  destruct (String.eqb_spec h0 h) as [->|Hne].
  - destruct Hd as [Hd|Hd]; [contradiction|].
    destruct (set_handler_field_self _ _ _ _ _ H) as (hd & H1 & H2).
    rewrite H1, H2. simpl. rewrite assoc_set_other by congruence. reflexivity.
  - rewrite (set_handler_field_other _ _ _ _ _ h0 H Hne). reflexivity.
Qed.

Lemma set_handler_field_level_self (c : yaml) (h : string) (v c' : yaml) :
  set_handler_field c h "level" v = Ok c' -> declared_level c' h = Ok v.
Proof.
  intros H. unfold declared_level.
  destruct (set_handler_field_self _ _ _ _ _ H) as (hd & H1 & H2).
  rewrite H2. simpl. rewrite assoc_set_same. reflexivity.
Qed.

Lemma same_levels_refl (c : yaml) : same_levels c c.
Proof. repeat split. Qed.

Lemma same_levels_trans (c0 c1 c2 : yaml) :
  same_levels c0 c1 -> same_levels c1 c2 -> same_levels c0 c2.
Proof.
  intros (R1 & N1 & F1 & L1) (R2 & N2 & F2 & L2).
  repeat split; intros; congruence.
Qed.

(** The first loop changes file names only. *)
Lemma redirect_file_handlers_same_levels (logdir : string) (names : list string) :
  forall c n c' n',
    redirect_file_handlers logdir names c n = Ok (c', n') -> same_levels c c'.
Proof.
  induction names as [|h rest IH]; simpl; intros c n c' n' H.
  - injection H as <- _. apply same_levels_refl.
  - destruct (has_filename c h) as [[|]|e] eqn:Hf; simpl in H; try discriminate.
    + destruct (handler_of c h) as [hd|e] eqn:Hh; simpl in H; [|discriminate].
      destruct (getitem hd "filename") as [old|e] eqn:Ho; simpl in H; [|discriminate].
      destruct (join_value logdir old) as [new|e] eqn:Hj; simpl in H; [|discriminate].
      destruct (set_handler_field c h "filename" new) as [c1|e] eqn:Hs;
        simpl in H; [|discriminate].
      apply (same_levels_trans c c1 c'); [|eapply IH; eassumption].
      repeat split.
      * eapply set_handler_field_root; eassumption.
      * eapply set_handler_field_names; eassumption.
      * eapply set_handler_field_has_filename; [eassumption | intros _; assumption].
      * intros h0. eapply set_handler_field_level_other; [eassumption|].
        right. discriminate.
    + eapply IH; eassumption.
Qed.

Lemma redirect_same_levels (logdir : string) (c c' : yaml) (n' : Z) :
  redirect logdir c = Ok (c', n') -> same_levels c c'.
Proof.
  unfold redirect.
  destruct (getitem c "handlers") as [hs|e]; simpl; [|discriminate].
  destruct (keys hs) as [names|e]; simpl; [|discriminate].
  apply redirect_file_handlers_same_levels.
Qed.

(** ** The second loop *)

Lemma fold_min_le (l : list Z) :
  forall m, fold_left Z.min l m <= m
            /\ (forall x, In x l -> fold_left Z.min l m <= x).
Proof.
  induction l as [|a l IH]; simpl; intros m.
  - split; [lia | contradiction].
  - destruct (IH (Z.min m a)) as [H1 H2]. split; [lia|].
    intros x [<-|Hx]; [lia | auto].
Qed.

Lemma fold_min_attained (l : list Z) :
  forall m, fold_left Z.min l m = m \/ In (fold_left Z.min l m) l.
Proof.
  induction l as [|a l IH]; simpl; intros m; [left; reflexivity|].
  destruct (IH (Z.min m a)) as [H|H]; [|right; right; exact H].
  rewrite H. destruct (Z.min_spec m a) as [[_ ->]|[_ ->]]; auto.
Qed.

Lemma is_file_handler_true (c : yaml) (h : string) :
  is_file_handler c h = true <-> has_filename c h = Ok true.
Proof.
  unfold is_file_handler. destruct (has_filename c h) as [[|]|e];
    split; intros H; try discriminate; reflexivity.
Qed.

Lemma has_filename_declared (c : yaml) (h : string) (b : bool) :
  has_filename c h = Ok b ->
  exists hd, handler_of c h = Ok hd
             /\ declared_level c h = getitem hd "level".
Proof.
  unfold has_filename, declared_level.
  destruct (handler_of c h) as [hd|e]; simpl; [|discriminate].
  intros _. exists hd. auto.
Qed.

(** The loop computes the minimum of its start value and the levels of the
    file handlers. *)
Lemma most_verbose_of_fold (names : list string) (c : yaml) :
  forall m ev,
    most_verbose_of w names c m = Ok ev ->
    ev = fold_left Z.min (file_handler_levels w c names) m.
Proof.
  induction names as [|h rest IH]; simpl; intros m ev H.
  - congruence.
  - unfold is_file_handler.
    destruct (has_filename c h) as [[|]|e] eqn:Hf; simpl in H; try discriminate.
    + destruct (has_filename_declared c h true Hf) as (hd & Hh & Hd).
      rewrite Hh in H. simpl in H. rewrite Hd.
      destruct (getitem hd "level") as [name|e]; simpl in H; [|discriminate].
      destruct (getattr_logging w name) as [n|e]; simpl in H; [|discriminate].
      simpl. apply IH. exact H.
    + simpl. apply IH. exact H.
Qed.

(** When the loop ends normally every file handler it met has a level that
    names a constant of [logging]. *)
Lemma most_verbose_of_defined (names : list string) (c : yaml) :
  forall m ev,
    most_verbose_of w names c m = Ok ev ->
    forall h, In h names -> has_filename c h = Ok true ->
    exists name n, declared_level c h = Ok name /\ getattr_logging w name = Ok n.
Proof.
  induction names as [|h0 rest IH]; simpl; intros m ev H h Hin Hf; [contradiction|].
  destruct Hin as [->|Hin].
  - rewrite Hf in H. simpl in H.
    destruct (has_filename_declared c h true Hf) as (hd & Hh & Hd).
    rewrite Hh in H. simpl in H. rewrite Hd.
    destruct (getitem hd "level") as [name|e]; simpl in H; [|discriminate].
    destruct (getattr_logging w name) as [n|e] eqn:Hg; simpl in H; [|discriminate].
    exists name, n. auto.
  - destruct (has_filename c h0) as [[|]|e]; simpl in H; try discriminate.
    + destruct (handler_of c h0) as [hd|e]; simpl in H; [|discriminate].
      destruct (getitem hd "level") as [name|e]; simpl in H; [|discriminate].
      destruct (getattr_logging w name) as [n|e]; simpl in H; [|discriminate].
      eapply IH; eassumption.
    + eapply IH; eassumption.
Qed.

Lemma file_handler_levels_ext (c0 c : yaml) (names : list string) :
  (forall h, In h names -> has_filename c h = has_filename c0 h) ->
  (forall h, In h names -> has_filename c h = Ok true ->
             declared_level c h = declared_level c0 h) ->
  file_handler_levels w c names = file_handler_levels w c0 names.
Proof.
  induction names as [|h rest IH]; simpl; intros Hf Hl; [reflexivity|].
  assert (E : file_handler_levels w c rest = file_handler_levels w c0 rest).
  { apply IH; intros; [apply Hf | apply Hl]; auto. }
  rewrite E. f_equal. unfold is_file_handler.
  rewrite <- (Hf h (or_introl eq_refl)).
  destruct (has_filename c h) as [[|]|e] eqn:Eh; try reflexivity.
  rewrite (Hl h (or_introl eq_refl) Eh). reflexivity.
Qed.

Lemma In_file_handler_levels (c : yaml) (names : list string) (n : Z) :
  In n (file_handler_levels w c names) <->
  exists h name, In h names /\ is_file_handler c h = true
                 /\ declared_level c h = Ok name /\ getattr_logging w name = Ok n.
Proof.
  unfold file_handler_levels. rewrite in_flat_map. split.
  - intros (h & Hin & Hn).
    destruct (is_file_handler c h) eqn:Hf; [|contradiction].
    destruct (declared_level c h) as [name|e] eqn:Hd; [|contradiction].
    destruct (getattr_logging w name) as [n'|e] eqn:Hg; [|contradiction].
    destruct Hn as [<-|[]]. exists h, name. auto.
  - intros (h & name & Hin & Hf & Hd & Hg). exists h. split; [assumption|].
    rewrite Hf, Hd, Hg. left. reflexivity.
Qed.

Lemma getattr_level_value (name : yaml) (n : Z) :
  getattr_logging w name = Ok n -> level_value w name = Some n.
Proof.
  destruct name; simpl; try discriminate.
  destruct (logging_attr w s); [congruence|].
  destruct (logging_object w s); discriminate.
Qed.

Lemma file_handler_named (c : yaml) (h : string) (names : list string) :
  is_file_handler c h = true -> handler_names c = Ok names -> In h names.
Proof.
  intros Hf Hn. apply is_file_handler_true in Hf.
  destruct (has_filename_declared c h true Hf) as (hd & Hh & _).
  destruct (handler_of_Ok c h hd Hh) as (top & hs & -> & Ht & Hhs).
  unfold handler_names in Hn. simpl in Hn. rewrite Ht in Hn. simpl in Hn.
  injection Hn as <-. eapply assoc_In_keys; eassumption.
Qed.

Lemma set_root_level_effect (c : yaml) (ev : Z) (c' : yaml) :
  set_root_level c ev = Ok c' ->
  root_level c' = Ok (YInt ev)
  /\ getitem c' "handlers" = getitem c "handlers".
Proof.
  unfold set_root_level, root_level.
  destruct (getitem c "root") as [r|e] eqn:E1; simpl; [|discriminate].
  destruct (setitem r "level" (YInt ev)) as [r'|e] eqn:E2; simpl; [|discriminate].
  destruct (getitem_Ok _ _ _ E1) as (top & -> & Ht).
  destruct (setitem_Ok _ _ _ _ E2) as (rk & -> & ->).
  simpl. intros [= <-]. simpl. rewrite assoc_set_same. simpl.
  rewrite assoc_set_same, assoc_set_other by discriminate. auto.
Qed.

End Reconciliation.

Section Bootstrap.

Variable w : world.

(** Lines 62 to 70 on a document that has gone through the first loop. *)
Lemma reconcile_effective (requested : Z) (c0 c1 c' : yaml) (ev : Z) :
  same_levels c0 c1 ->
  reconcile w requested c1 = Ok (c', ev) ->
  exists name root names,
    root_level c0 = Ok name /\ getattr_logging w name = Ok root
    /\ handler_names c0 = Ok names
    /\ ev = effective_verbosity requested root (file_handler_levels w c0 names)
    /\ root_level c' = Ok (YInt ev)
    /\ declared_level c' "console" = Ok (YInt requested).
Proof.
  intros (SR & SN & SF & SL) H. unfold reconcile in H.
  destruct (set_handler_field c1 "console" "level" (YInt requested))
    as [c2|e] eqn:Hs; simpl in H; [|discriminate].
  destruct (getitem c2 "root") as [r|e] eqn:Hr; simpl in H; [|discriminate].
  destruct (getitem r "level") as [name|e] eqn:Hn; simpl in H; [|discriminate].
  destruct (getattr_logging w name) as [root|e] eqn:Hg; simpl in H; [|discriminate].
  destruct (getitem c2 "handlers") as [hs|e] eqn:Hh; simpl in H; [|discriminate].
  destruct (keys hs) as [names|e] eqn:Hk; simpl in H; [|discriminate].
  destruct (most_verbose_of w names c2 (Z.min requested root)) as [mv|e] eqn:Hm;
    simpl in H; [|discriminate].
  destruct (set_root_level c2 mv) as [c3|e] eqn:Hset; simpl in H; [|discriminate].
  injection H as <- <-.
  pose proof (set_handler_field_root _ _ _ _ _ Hs) as R2.
  pose proof (set_handler_field_names _ _ _ _ _ Hs) as N2.
  pose proof (set_handler_field_level_self _ _ _ _ Hs) as L2.
  destruct (set_root_level_effect _ _ _ Hset) as [R3 H3].
  assert (Hnames : handler_names c2 = Ok names).
  { unfold handler_names. rewrite Hh. simpl. exact Hk. }
  exists name, root, names. repeat split.
  - unfold root_level. rewrite <- SR, <- R2, Hr. simpl. exact Hn.
  - exact Hg.
  - rewrite <- SN, <- N2. exact Hnames.
  - unfold effective_verbosity.
    rewrite (most_verbose_of_fold w names c2 _ _ Hm). f_equal.
    apply file_handler_levels_ext.
    + intros h _.
      rewrite (set_handler_field_has_filename _ _ _ _ _ Hs) by discriminate.
      apply SF.
    + intros h Hin Hf.
      destruct (String.eqb_spec h "console") as [->|Hne].
      * destruct (most_verbose_of_defined w names c2 _ _ Hm "console" Hin Hf)
          as (nm & n & Hd & Hgn).
        rewrite L2 in Hd. injection Hd as <-. discriminate Hgn.
      * rewrite (set_handler_field_level_other _ _ _ _ _ Hs) by (left; exact Hne).
        apply SL.
  - exact R3.
  - unfold declared_level, handler_of. rewrite H3.
    exact L2.
Qed.

Lemma load_and_configure_Ok (requested : Z) (path : string) (s s' : state) :
  load_and_configure w requested path s = (s', Ok tt) ->
  exists c0 c1 n c' ev,
    load w path = Ok c0
    /\ redirect (log_dir w) c0 = Ok (c1, n)
    /\ reconcile w requested c1 = Ok (c', ev)
    /\ active s' = DictConfigured c'
    /\ stdout s' = stdout s.
Proof.
  unfold load_and_configure, bindM, lift.
  destruct (load w path) as [c0|e] eqn:Hl; [|discriminate].
  destruct (redirect (log_dir w) c0) as [[c1 n]|e] eqn:Hr; [|discriminate].
  cbn [fst snd].
  assert (Hm : (exists s1, (if 0 <? n then mkdir w (log_dir w) else ret tt) s
                           = (s1, Ok tt) /\ stdout s1 = stdout s)
               \/ (exists s1 e, (if 0 <? n then mkdir w (log_dir w) else ret tt) s
                                = (s1, Raise e))).
  { destruct (0 <? n); [|left; exists s; split; reflexivity].
    unfold mkdir. destruct (mkdir_error w (log_dir w)) as [e|].
    - right. eauto.
    - left. eexists. split; reflexivity. }
  destruct Hm as [(s1 & -> & Hout)|(s1 & e & ->)]; [|discriminate].
  destruct (reconcile w requested c1) as [[c' ev]|e] eqn:Hc; [|discriminate].
  cbn [fst]. unfold dictConfig.
  destruct (dictConfig_error w c') as [e|]; [discriminate|].
  unfold set_active. intros [= <-]. simpl.
  exists c0, c1, n, c', ev. auto.
Qed.

(** An exception inside the [try] body leaves the printed lines and the
    active configuration as they were. *)
Lemma load_and_configure_Raise (requested : Z) (path : string) (s s' : state) (e : exn) :
  load_and_configure w requested path s = (s', Raise e) ->
  active s' = active s /\ stdout s' = stdout s /\ log_calls s' = log_calls s.
Proof.
  unfold load_and_configure, bindM, lift.
  destruct (load w path) as [c0|e0]; [|intros [= <- _]; auto].
  destruct (redirect (log_dir w) c0) as [[c1 n]|e0]; [|intros [= <- _]; auto].
  cbn [fst snd].
  destruct (0 <? n).
  - unfold mkdir. destruct (mkdir_error w (log_dir w)) as [e0|];
      [intros [= <- _]; auto|].
    destruct (reconcile w requested c1) as [[c' ev]|e0]; [|intros [= <- _]; auto].
    cbn [fst]. unfold dictConfig.
    destruct (dictConfig_error w c') as [e0|]; [intros [= <- _]; auto|].
    discriminate.
  - unfold ret.
    destruct (reconcile w requested c1) as [[c' ev]|e0]; [|intros [= <- _]; auto].
    cbn [fst]. unfold dictConfig.
    destruct (dictConfig_error w c') as [e0|]; [intros [= <- _]; auto|].
    discriminate.
Qed.

End Bootstrap.

(** ** The three failures that are caught *)

Lemma setup_logging_missing_file (w : world) (requested : Z) (dp : string) (s : state) :
  path_exists w (config_path w dp) = false ->
  setup_logging w requested dp s =
  (fell_back ["Unable to open logging config file " ++ quoted (config_path w dp);
              "Reverting to basic logging."] requested s, Ok tt).
Proof.
  intros H. unfold setup_logging, bindM. rewrite H.
  unfold print, ret, basicConfig, set_active, fell_back. simpl.
  rewrite <- app_assoc. simpl.
  destruct (active s); reflexivity.
Qed.

Lemma setup_logging_body (w : world) (requested : Z) (dp : string) (s s1 : state)
    (r : result unit) :
  path_exists w (config_path w dp) = true ->
  load_and_configure w requested (config_path w dp) s = (s1, r) ->
  setup_logging w requested dp s =
  match r with
  | Ok _ => (s1, Ok tt)
  | Raise e =>
      match exc_type e with
      | ScannerError =>
          (fell_back ["Error parsing logging config file " ++ quoted (config_path w dp);
                      "Reverting to basic logging."] requested s1, Ok tt)
      | KeyError =>
          (fell_back ["Key " ++ exc_str e ++ " not found in logging config file";
                      "Reverting to basic logging."] requested s1, Ok tt)
      | _ => (s1, Raise e)
      end
  end.
Proof.
  intros Hp Hb. unfold setup_logging, bindM, try_load. rewrite Hp, Hb.
  destruct r as [u|e]; [reflexivity|].
  destruct (exc_type e); try reflexivity;
    unfold bindM, print, ret, basicConfig, set_active, fell_back; simpl;
    rewrite <- app_assoc; simpl; destruct (active s1); reflexivity.
Qed.

(** A missing file, a [ScannerError] of the YAML reader and a [KeyError] of a
    lookup end in the basic configuration, with two printed lines. *)
Lemma setup_logging_caught (w : world) (requested : Z) (dp : string) (s : state) :
  active s = Unconfigured ->
  path_exists w (config_path w dp) = false
  \/ (path_exists w (config_path w dp) = true
      /\ exists s1 e, load_and_configure w requested (config_path w dp) s = (s1, Raise e)
                      /\ (exc_type e = ScannerError \/ exc_type e = KeyError)) ->
  exists s' line,
    setup_logging w requested dp s = (s', Ok tt)
    /\ active s' = BasicConfigured requested
    /\ stdout s' = (stdout s ++ [line; "Reverting to basic logging."])%list.
Proof.
  intros Ha [Hp|(Hp & s1 & e & Hb & He)].
  - rewrite (setup_logging_missing_file w requested dp s Hp).
    eexists. eexists. split; [reflexivity|]. simpl. rewrite Ha. auto.
  - rewrite (setup_logging_body w requested dp s s1 _ Hp Hb).
    destruct (load_and_configure_Raise w requested _ s s1 e Hb) as (A1 & O1 & _).
    destruct He as [He|He]; rewrite He;
      eexists; eexists; (split; [reflexivity|]); simpl;
      rewrite A1, Ha, O1; auto.
Qed.

(** ** C1 *)

(** C1, at two inputs the program can meet: a configuration file the YAML
    reader rejects with a [ParserError], and an empty configuration file, for
    which [safe_load] returns [None].  In both runs the exception leaves
    [setup_logging], nothing is printed and no logging configuration is
    active. *)
Theorem setup_logging_fails_outward :
  setup_logging (world_of (Raise (Exn ParserError "expected ',' or ']', but got '<stream end>'")))
                30 "logging.yaml" initial_state
  = (initial_state,
     Raise (Exn ParserError "expected ',' or ']', but got '<stream end>'"))
  /\ setup_logging (world_of (Ok YNull)) 30 "logging.yaml" initial_state
     = (initial_state,
        Raise (Exn TypeError "'NoneType' object is not subscriptable")).
Proof. split; reflexivity. Qed.

Example setup_logging_scenario_E :
  setup_logging world_without_file 20 "logging.yaml" initial_state
  = ({| stdout := ["Unable to open logging config file '/etc/missing.yaml'";
                   "Reverting to basic logging."];
        active := BasicConfigured 20;
        created_dirs := []; log_calls := [] |}, Ok tt).
Proof. reflexivity. Qed.

Example setup_logging_missing_handlers :
  setup_logging (world_of (Ok root_only)) 30 "logging.yaml" initial_state
  = ({| stdout := ["Key 'handlers' not found in logging config file";
                   "Reverting to basic logging."];
        active := BasicConfigured 30;
        created_dirs := []; log_calls := [] |}, Ok tt).
Proof. reflexivity. Qed.

(** ** C2 *)

Lemma setup_logging_activated (w : world) (requested : Z) (dp : string)
    (s s' : state) (activated : yaml) :
  active s = Unconfigured ->
  setup_logging w requested dp s = (s', Ok tt) ->
  active s' = DictConfigured activated ->
  load_and_configure w requested (config_path w dp) s = (s', Ok tt).
Proof.
  intros Ha Hrun Hact.
  destruct (path_exists w (config_path w dp)) eqn:Hp.
  - destruct (load_and_configure w requested (config_path w dp) s) as [s1 r] eqn:Hb.
    rewrite (setup_logging_body w requested dp s s1 r Hp Hb) in Hrun.
    destruct r as [[]|e]; [congruence|].
    destruct (load_and_configure_Raise w requested _ s s1 e Hb) as (A1 & _).
    destruct (exc_type e); try discriminate Hrun;
      injection Hrun as <-; simpl in Hact; rewrite A1, Ha in Hact; discriminate.
  - rewrite (setup_logging_missing_file w requested dp s Hp) in Hrun.
    injection Hrun as <-. simpl in Hact. rewrite Ha in Hact. discriminate.
Qed.

(** X20: when [setup_logging] activates the document, the console
    handler has the requested level and the root level is the effective
    verbosity: the minimum of the requested level, the declared root level
    and the declared level of every handler with a [filename] key.  It is at
    most the requested level (the level of the console handler), the declared
    root level and the level of every file handler, and it is one of these
    levels. *)
Theorem setup_logging_effective_verbosity (w : world) (requested : Z) (dp : string)
    (s s' : state) (activated : yaml) :
  active s = Unconfigured ->
  setup_logging w requested dp s = (s', Ok tt) ->
  active s' = DictConfigured activated ->
  exists declared name root names ev,
    load w (config_path w dp) = Ok declared
    /\ root_level declared = Ok name /\ getattr_logging w name = Ok root
    /\ handler_names declared = Ok names
    /\ ev = effective_verbosity requested root (file_handler_levels w declared names)
    /\ declared_level activated "console" = Ok (YInt requested)
    /\ handler_level w activated "console" = Some requested
    /\ root_level activated = Ok (YInt ev)
    /\ ev <= requested
    /\ ev <= root
    /\ (forall h, is_file_handler declared h = true ->
                  exists n, handler_level w declared h = Some n /\ ev <= n)
    /\ (ev = requested \/ ev = root
        \/ exists h, is_file_handler declared h = true
                     /\ handler_level w declared h = Some ev).
Proof.
  intros Ha Hrun Hact.
  pose proof (setup_logging_activated w requested dp s s' activated Ha Hrun Hact) as Hb.
  destruct (load_and_configure_Ok w requested _ s s' Hb)
    as (c0 & c1 & n & c' & ev & Hl & Hr & Hc & Hact' & _).
  assert (c' = activated) by congruence. subst c'.
  destruct (reconcile_effective w requested c0 c1 activated ev
              (redirect_same_levels _ _ _ _ Hr) Hc)
    as (name & root & names & Hroot & Hg & Hn & Hev & Hra & Hcon).
  pose proof (fold_min_le (file_handler_levels w c0 names) (Z.min requested root))
    as [Hle Hall].
  fold (effective_verbosity requested root (file_handler_levels w c0 names)) in Hle, Hall.
  rewrite <- Hev in Hle, Hall.
  exists c0, name, root, names, ev.
  repeat (split; [assumption|]).
  split; [unfold handler_level; rewrite Hcon; reflexivity|].
  split; [assumption|].
  split; [lia|]. split; [lia|]. split.
  - intros h Hf.
    pose proof (file_handler_named c0 h names Hf Hn) as Hin.
    assert (Hf2 : has_filename c0 h = Ok true) by (apply is_file_handler_true; exact Hf).
    (* the second loop met [h] in the reconciled document *)
    unfold reconcile in Hc.
    destruct (set_handler_field c1 "console" "level" (YInt requested))
      as [c2|e] eqn:Hs; simpl in Hc; [|discriminate].
    destruct (getitem c2 "root") as [r|e]; simpl in Hc; [|discriminate].
    destruct (getitem r "level") as [nm|e]; simpl in Hc; [|discriminate].
    destruct (getattr_logging w nm) as [rt|e]; simpl in Hc; [|discriminate].
    destruct (getitem c2 "handlers") as [hs|e] eqn:Hh; simpl in Hc; [|discriminate].
    destruct (keys hs) as [names2|e] eqn:Hk; simpl in Hc; [|discriminate].
    destruct (most_verbose_of w names2 c2 (Z.min requested rt)) as [mv|e] eqn:Hm;
      simpl in Hc; [|discriminate].
    destruct (redirect_same_levels _ _ _ _ Hr) as (_ & SN & SF & SL).
    assert (Hn2 : handler_names c2 = Ok names2).
    { unfold handler_names. rewrite Hh. simpl. exact Hk. }
    rewrite (set_handler_field_names _ _ _ _ _ Hs), SN, Hn in Hn2.
    injection Hn2 as <-.
    assert (Hf3 : has_filename c2 h = Ok true).
    { rewrite (set_handler_field_has_filename _ _ _ _ _ Hs) by discriminate.
      rewrite SF. exact Hf2. }
    destruct (most_verbose_of_defined w names c2 _ _ Hm h Hin Hf3)
      as (lv & k & Hd & Hgk).
    assert (Hne : h <> "console").
    { intros ->. rewrite (set_handler_field_level_self _ _ _ _ Hs) in Hd.
      injection Hd as <-. discriminate Hgk. }
    rewrite (set_handler_field_level_other _ _ _ _ _ Hs) in Hd by (left; exact Hne).
    rewrite SL in Hd.
    exists k. split.
    + unfold handler_level. rewrite Hd. apply getattr_level_value. exact Hgk.
    + apply Hall. apply In_file_handler_levels. exists h, lv. auto.
  - destruct (fold_min_attained (file_handler_levels w c0 names) (Z.min requested root))
      as [Hat|Hat];
      fold (effective_verbosity requested root (file_handler_levels w c0 names)) in Hat;
      rewrite <- Hev in Hat.
    + destruct (Z.min_spec requested root) as [[_ E]|[_ E]]; rewrite E in Hat; auto.
    + right. right.
      apply In_file_handler_levels in Hat as (h & lv & _ & Hf & Hd & Hgk).
      exists h. split; [exact Hf|].
      unfold handler_level. rewrite Hd. apply getattr_level_value. exact Hgk.
Qed.

(** Scenario D: requested [INFO], root [WARNING], a file handler at [ERROR]. *)
Lemma setup_logging_effective_verbosity_witness :
  exists declared name root names ev,
    load (world_of (Ok console_and_file))
         (config_path (world_of (Ok console_and_file)) "logging.yaml") = Ok declared
    /\ root_level declared = Ok name
    /\ getattr_logging (world_of (Ok console_and_file)) name = Ok root
    /\ handler_names declared = Ok names
    /\ ev = effective_verbosity 20 root
              (file_handler_levels (world_of (Ok console_and_file)) declared names)
    /\ ev = 20.
Proof.
  destruct (setup_logging_effective_verbosity
              (world_of (Ok console_and_file)) 20 "logging.yaml" initial_state
              (fst (setup_logging (world_of (Ok console_and_file)) 20 "logging.yaml"
                                  initial_state))
              (YMap
                 [("version", YInt 1);
                  ("handlers",
                   YMap
                     [("console",
                       YMap [("class", YStr "logging.StreamHandler");
                             ("level", YInt 20)]);
                      ("logfile",
                       YMap [("class", YStr "logging.FileHandler");
                             ("filename",
                              YStr "/home/dev/.cache/pymcuprog/log/pymcuprog.log");
                             ("level", YStr "ERROR")])]);
                  ("root",
                   YMap [("level", YInt 20);
                         ("handlers", YSeq [YStr "console"; YStr "logfile"])])])
              eq_refl eq_refl eq_refl)
    as (declared & name & root & names & ev & H1 & H2 & H3 & H4 & H5 & _ & _ & H8 & _).
  exists declared, name, root, names, ev.
  repeat (split; [assumption|]).
  vm_compute in H8. injection H8 as <-. reflexivity.
Defined.

Example setup_logging_scenario_D :
  exists s', setup_logging (world_of (Ok console_and_file)) 20 "logging.yaml" initial_state
             = (s', Ok tt)
             /\ (exists c, active s' = DictConfigured c
                           /\ root_level c = Ok (YInt 20)
                           /\ declared_level c "console" = Ok (YInt 20)
                           /\ declared_level c "logfile" = Ok (YStr "ERROR"))
             /\ created_dirs s' = ["/home/dev/.cache/pymcuprog/log"].
Proof.
  eexists. split; [reflexivity|]. split; [|reflexivity].
  eexists. split; [reflexivity|]. repeat split.
Qed.

(** C2: with a second stream handler at [DEBUG] that has no [filename], root
    [WARNING] and the requested level [WARNING], [setup_logging] activates
    the document with the console handler at 30 and the root level 30, above
    the 10 of the stream handler: the root logger is not the most verbose of
    all the configurations of the document. *)
Theorem setup_logging_misses_stream_handler :
  exists s' activated,
    setup_logging (world_of (Ok console_and_syslog)) 30 "logging.yaml" initial_state
    = (s', Ok tt)
    /\ active s' = DictConfigured activated
    /\ declared_level activated "console" = Ok (YInt 30)
    /\ root_level activated = Ok (YInt 30)
    /\ declared_level activated "syslog" = Ok (YStr "DEBUG")
    /\ handler_level (world_of (Ok console_and_syslog)) activated "syslog" = Some 10
    /\ is_file_handler activated "syslog" = false.
Proof.
  eexists. eexists. split; [reflexivity|]. split; [reflexivity|].
  repeat split.
Qed.

(** The invariant in its widest reading fails at this document. *)
Lemma root_above_stream_handler :
  ~ root_below_every_handler (world_of (Ok console_and_syslog)) 30.
Proof.
  intros H.
  destruct (H initial_state _ _ eq_refl eq_refl eq_refl "syslog" 10 eq_refl)
    as (ev & Hroot & Hle).
  simpl in Hroot. injection Hroot as <-. lia.
Qed.

(** ** The whole of [main] after the parse *)

(** With [-v info], no configuration file and an engine that fails, [main]
    prints the two diagnostics, logs the failure twice and returns [None]. *)
Example main_engine_failure :
  main_after_parse world_without_file "info"
                   (lift (Raise (Exn RuntimeError "no tool found")) : M Z)
                   initial_state
  = ({| stdout := ["Unable to open logging config file '/etc/missing.yaml'";
                   "Reverting to basic logging."];
        active := BasicConfigured 20;
        created_dirs := [];
        log_calls := failure_records (Exn RuntimeError "no tool found") |},
     Ok None).
Proof. reflexivity. Qed.

(** * Further properties of the literal parsers *)

Section ParserOutcomes.

Lemma ints_of_outcomes (segs : list string) (a b : string) (rest : list string) :
  segs = a :: b :: rest ->
  match ints_of segs with
  | Ok v => exists x y, v = VList [VInt x; VInt y]
                        /\ int_literal a = Some x /\ int_literal b = Some y
  | Raise e => exc_type e = ValueError
               /\ (int_literal a = None \/ int_literal b = None)
  end.
Proof.
  intros ->. unfold ints_of, py_int0. simpl.
  destruct (int_literal a) as [x|]; simpl; [|auto].
  destruct (int_literal b) as [y|]; simpl; [|auto].
  exists x, y. auto.
Qed.

Lemma floats_of_outcomes (segs : list string) (a b : string) (rest : list string) :
  segs = a :: b :: rest ->
  match floats_of segs with
  | Ok v => exists f g, v = VList [VFloat f; VFloat g]
                        /\ float_literal a = Some f /\ float_literal b = Some g
  | Raise e => exc_type e = ValueError
               /\ (float_literal a = None \/ float_literal b = None)
  end.
Proof.
  intros ->. unfold floats_of, py_float. simpl.
  destruct (float_literal a) as [f|]; simpl; [|auto].
  destruct (float_literal b) as [g|]; simpl; [|auto].
  exists f, g. auto.
Qed.

(** X1: [_parse_literal] returns an integer or a float for a token without a
    colon and a list of exactly two integers for a token with one; it never
    returns [None], a float inside a list or a longer list, and the only
    exception that leaves it is a [ValueError]. *)
Theorem parse_literal_outcomes (t : string) :
  match _parse_literal t with
  | Ok v =>
      (contains colon t = false
       /\ ((exists n, v = VInt n) \/ (exists f, v = VFloat f)))
      \/ (contains colon t = true /\ exists x y, v = VList [VInt x; VInt y])
  | Raise e => exc_type e = ValueError
  end.
Proof.
  unfold _parse_literal. destruct (contains colon t) eqn:Hc.
  - destruct (proj1 (contains_split t) Hc) as (a & b & rest & Hs).
    pose proof (ints_of_outcomes _ a b rest Hs) as H.
    destruct (ints_of (split colon t)) as [v|e].
    + right. destruct H as (x & y & -> & _). eauto.
    + tauto.
  - unfold py_int0, py_float.
    destruct (int_literal t) as [n|]; simpl; [left; eauto|].
    destruct (float_literal t) as [f|]; simpl; [left; eauto | reflexivity].
Qed.

(** X2: [_parse_direct] returns [None] for a token without a colon and, for a
    token with one, a list of two integers or a list of two floats: never a
    bare number and never one integer beside one float.  The only exception
    that leaves it is a [ValueError]. *)
Theorem parse_direct_outcomes (t : string) :
  match _parse_direct t with
  | Ok v =>
      (contains colon t = false /\ v = VNone)
      \/ (contains colon t = true
          /\ ((exists x y, v = VList [VInt x; VInt y])
              \/ (exists f g, v = VList [VFloat f; VFloat g])))
  | Raise e => exc_type e = ValueError
  end.
Proof.
  unfold _parse_direct. destruct (contains colon t) eqn:Hc; [|left; auto].
  destruct (proj1 (contains_split t) Hc) as (a & b & rest & Hs).
  pose proof (ints_of_outcomes _ a b rest Hs) as Hi.
  pose proof (floats_of_outcomes _ a b rest Hs) as Hf.
  destruct (ints_of (split colon t)) as [v|e]; simpl.
  - right. destruct Hi as (x & y & -> & _). eauto.
  - destruct Hi as [-> _].
    destruct (floats_of (split colon t)) as [v|e'].
    + right. destruct Hf as (f & g & -> & _). eauto.
    + tauto.
Qed.

(** X3: on a token with a colon the two converters agree wherever
    [_parse_literal] succeeds: what [_parse_literal] returns is what
    [_parse_direct] returns, and an integer pair returned by [_parse_direct]
    is the result of [_parse_literal] too. *)
Theorem parse_direct_extends_parse_literal (t : string) (v : pyval) :
  contains colon t = true ->
  (_parse_literal t = Ok v -> _parse_direct t = Ok v)
  /\ (forall x y, _parse_direct t = Ok (VList [VInt x; VInt y]) ->
                  _parse_literal t = Ok (VList [VInt x; VInt y])).
Proof.
  intros Hc. rewrite (parse_literal_colon t Hc), (parse_direct_colon t Hc).
  destruct (proj1 (contains_split t) Hc) as (a & b & rest & Hs).
  pose proof (ints_of_outcomes _ a b rest Hs) as Hi.
  pose proof (floats_of_outcomes _ a b rest Hs) as Hf.
  split.
  - intros ->. reflexivity.
  - intros x y. destruct (ints_of (split colon t)) as [u|e]; simpl; [auto|].
    destruct Hi as [-> _].
    destruct (floats_of (split colon t)) as [u|e']; [|discriminate].
    destruct Hf as (f & g & -> & _). discriminate.
Qed.

Lemma parse_direct_extends_parse_literal_witness :
  _parse_direct "4:0x10" = Ok (VList [VInt 4; VInt 16]).
Proof.
  apply (proj1 (parse_direct_extends_parse_literal "4:0x10" _ eq_refl)).
  reflexivity.
Defined.

Lemma blank_not_a_number (a : string) :
  strip a = EmptyString -> int_literal a = None /\ float_literal a = None.
Proof.
  intros H. unfold int_literal, float_literal. rewrite H. split; reflexivity.
Qed.

(** X4: a token whose offset or value segment is empty or blank, such as
    [":5"], ["5:"] or [":"], is rejected by both converters with a
    [ValueError]. *)
Theorem blank_segment_rejected (t a b : string) (rest : list string) :
  split colon t = a :: b :: rest ->
  strip a = EmptyString \/ strip b = EmptyString ->
  raises (_parse_literal t) ValueError /\ raises (_parse_direct t) ValueError.
Proof.
  intros Hs Hb.
  pose proof (split_two_contains _ _ _ _ Hs) as Hc.
  assert (Hi : int_literal a = None \/ int_literal b = None).
  { destruct Hb as [H|H]; [left|right]; apply (blank_not_a_number _ H). }
  assert (Hf : float_literal a = None \/ float_literal b = None).
  { destruct Hb as [H|H]; [left|right]; apply (blank_not_a_number _ H). }
  rewrite (parse_literal_colon t Hc), (parse_direct_colon t Hc), Hs.
  split; [apply ints_of_fails; exact Hi|].
  rewrite (except_ValueError_handled _ _ (ints_of_fails a b rest Hi)).
  apply floats_of_fails. exact Hf.
Qed.

Lemma blank_segment_rejected_witness :
  raises (_parse_literal ":5") ValueError /\ raises (_parse_direct "5: ") ValueError.
Proof.
  split.
  - apply (blank_segment_rejected ":5" EmptyString "5" [] eq_refl).
    left. reflexivity.
  - apply (blank_segment_rejected "5: " "5" " " [] eq_refl).
    right. reflexivity.
Defined.

End ParserOutcomes.

(** * Further properties of [main] *)

Section Options.

Lemma is_char_cases (a b : ascii) (c : ascii) :
  is_char (String a EmptyString) (String b EmptyString) c = true -> c = a \/ c = b.
Proof.
  unfold is_char. intros H. apply orb_true_iff in H as [H|H];
    apply String.eqb_eq in H; injection H as ->; auto.
Qed.

(** A decimal reading and a prefix-aware reading of the same digits give the
    same number. *)
Lemma digits_unsigned_agree (body : string) (n m : Z) :
  digits 10 body = Some n -> unsigned_literal body = Some m -> n = m.
Proof.
  unfold unsigned_literal.
  destruct body as [|z [|c r]]; try congruence.
  destruct (Ascii.eqb z "0") eqn:Hz; simpl negb; cbv iota; [|congruence].
  apply Ascii.eqb_eq in Hz. subst z.
  destruct (is_char "x" "X" c) eqn:Hx.
  { destruct (is_char_cases _ _ _ Hx) as [->| ->]; discriminate. }
  destruct (is_char "o" "O" c) eqn:Ho.
  { destruct (is_char_cases _ _ _ Ho) as [->| ->]; discriminate. }
  destruct (is_char "b" "B" c) eqn:Hb.
  { destruct (is_char_cases _ _ _ Hb) as [->| ->]; discriminate. }
  intros ->. destruct n; congruence.
Qed.

(** X5: [--offset] reads its token with [int(x, 0)] and [--bytes] with
    [int(x)]; a token that both accept stands for the same number in both. *)
Theorem offset_bytes_agree (x : string) (n m : Z) :
  bytes_type x = Ok n -> offset_type x = Ok m -> n = m.
Proof.
  unfold bytes_type, offset_type, py_int, py_int0, int10_literal, int_literal.
  destruct (strip x) as [|c body]; [discriminate|].
  destruct (Ascii.eqb c "-").
  - destruct (digits 10 body) as [n'|] eqn:Hd; [|discriminate].
    destruct (unsigned_literal body) as [m'|] eqn:Hu; [|discriminate].
    simpl. intros [= <-] [= <-].
    rewrite (digits_unsigned_agree body n' m' Hd Hu). reflexivity.
  - destruct (Ascii.eqb c "+").
    + destruct (digits 10 body) as [n'|] eqn:Hd; [|discriminate].
      destruct (unsigned_literal body) as [m'|] eqn:Hu; [|discriminate].
      intros [= <-] [= <-]. exact (digits_unsigned_agree body n' m' Hd Hu).
    + destruct (digits 10 (String c body)) as [n'|] eqn:Hd; [|discriminate].
      destruct (unsigned_literal (String c body)) as [m'|] eqn:Hu; [|discriminate].
      intros [= <-] [= <-]. exact (digits_unsigned_agree _ n' m' Hd Hu).
Qed.

Lemma offset_bytes_agree_witness :
  bytes_type "1_024" = Ok 1024 /\ offset_type "1_024" = Ok 1024 /\ 1024 = 1024.
Proof.
  split; [reflexivity|]. split; [reflexivity|].
  exact (offset_bytes_agree "1_024" 1024 1024 eq_refl eq_refl).
Defined.

(** The two options differ on prefixes and on leading zeros. *)
Example offset_bytes_differ :
  offset_type "0x40" = Ok 64 /\ raises (bytes_type "0x40") ValueError
  /\ bytes_type "064" = Ok 64 /\ raises (offset_type "064") ValueError.
Proof.
  split; [reflexivity|]. split; [eexists; split; reflexivity|].
  split; [reflexivity|]. eexists; split; reflexivity.
Qed.

End Options.

Section Script.

Lemma main_after_setup (w : world) (verbose : string) (level : Z)
    (s s1 : state) (call : M Z) :
  getattr_logging w (YStr (uppercase verbose)) = Ok level ->
  setup_logging w level "logging.yaml" s = (s1, Ok tt) ->
  main_after_parse w verbose call s = dispatch call s1.
Proof.
  intros Hl Hs. unfold main_after_parse, bindM, lift. rewrite Hl, Hs. reflexivity.
Qed.

(** X7: the exit status of the script does not tell an engine that fails
    with an exception from one that returns zero: after the [except] clause
    [main] returns [None], and [sys.exit(None)] is the status zero.  A status
    the engine returns is passed on unchanged. *)
Theorem exit_status_of_failure (w : world) (verbose : string) (level : Z)
    (s s1 s2 : state) (call : M Z) :
  getattr_logging w (YStr (uppercase verbose)) = Ok level ->
  setup_logging w level "logging.yaml" s = (s1, Ok tt) ->
  (forall exc, call s1 = (s2, Raise exc) ->
               isinstance_Exception (exc_type exc) = true ->
               exists s3, script w verbose call s = (s3, Ok 0)
                          /\ log_calls s3 = (log_calls s2 ++ failure_records exc)%list)
  /\ (forall status, call s1 = (s2, Ok status) ->
                     script w verbose call s = (s2, Ok status)).
Proof.
  intros Hl Hs. unfold script, bindM.
  rewrite (main_after_setup w verbose level s s1 call Hl Hs). split.
  - intros exc Hc Hi. rewrite (dispatch_raise call s1 s2 exc Hc), Hi.
    eexists. split; reflexivity.
  - intros status Hc. unfold dispatch. rewrite Hc. reflexivity.
Qed.

Lemma exit_status_of_failure_witness :
  exists s3,
    script world_without_file "info"
           (lift (Raise (Exn RuntimeError "no tool found"))) initial_state
    = (s3, Ok 0).
Proof.
  destruct (proj1 (exit_status_of_failure world_without_file "info" 20 initial_state
                     (fst (setup_logging world_without_file 20 "logging.yaml"
                                         initial_state))
                     (fst (setup_logging world_without_file 20 "logging.yaml"
                                         initial_state))
                     (lift (Raise (Exn RuntimeError "no tool found")))
                     eq_refl eq_refl)
                  (Exn RuntimeError "no tool found") eq_refl eq_refl)
    as (s3 & H & _).
  exists s3. exact H.
Defined.

End Script.

(** * Further properties of [setup_logging] *)

Section Redirection.

Lemma set_handler_field_top (c : yaml) (h k : string) (v c' : yaml) (k0 : string) :
  set_handler_field c h k v = Ok c' -> k0 <> "handlers" ->
  getitem c' k0 = getitem c k0.
Proof.
  intros H Hne. destruct (set_handler_field_shape _ _ _ _ _ H)
    as (top & hs & hd & -> & Ht & Hh & ->).
  simpl. rewrite assoc_set_other by assumption. reflexivity.
Qed.

Lemma set_root_level_top (c : yaml) (ev : Z) (c' : yaml) (k0 : string) :
  set_root_level c ev = Ok c' -> k0 <> "root" -> getitem c' k0 = getitem c k0.
Proof.
  unfold set_root_level. intros H Hne.
  destruct (getitem c "root") as [r|e] eqn:E1; simpl in H; [|discriminate].
  destruct (setitem r "level" (YInt ev)) as [r'|e] eqn:E2; simpl in H; [|discriminate].
  destruct (getitem_Ok _ _ _ E1) as (top & -> & Ht).
  simpl in H. injection H as <-. simpl.
  rewrite assoc_set_other by assumption. reflexivity.
Qed.

Lemma filename_of_handler (c c' : yaml) (h : string) :
  handler_of c' h = handler_of c h -> filename_of c' h = filename_of c h.
Proof. unfold filename_of. intros ->. reflexivity. Qed.

(** One step of the first loop, taken apart. *)
Lemma redirect_step (logdir : string) (c : yaml) (h : string) (rest : list string)
    (n : Z) (c' : yaml) (n' : Z) :
  redirect_file_handlers logdir (h :: rest) c n = Ok (c', n') ->
  (has_filename c h = Ok false
   /\ redirect_file_handlers logdir rest c n = Ok (c', n'))
  \/ (has_filename c h = Ok true
      /\ exists f c1,
          filename_of c h = Ok (YStr f)
          /\ set_handler_field c h "filename" (YStr (os_path_join logdir f)) = Ok c1
          /\ redirect_file_handlers logdir rest c1 (n + 1) = Ok (c', n')).
Proof.
  simpl. intros H.
  destruct (has_filename c h) as [[|]|e] eqn:Hf; simpl in H; try discriminate;
    [right | left; auto].
  split; [reflexivity|]. unfold filename_of.
  destruct (handler_of c h) as [hd|e] eqn:Hh; simpl in H; [|discriminate].
  destruct (getitem hd "filename") as [old|e] eqn:Ho; simpl in H; [|discriminate].
  destruct old as [| | |f| |]; simpl in H; try discriminate.
  destruct (set_handler_field c h "filename" (YStr (os_path_join logdir f)))
    as [c1|e] eqn:Hs; simpl in H; [|discriminate].
  exists f, c1. simpl. auto.
Qed.

Lemma redirect_step_has_filename (c : yaml) (h : string) (v c1 : yaml) :
  has_filename c h = Ok true ->
  set_handler_field c h "filename" v = Ok c1 ->
  forall h0, has_filename c1 h0 = has_filename c h0.
Proof.
  intros Hf Hs. eapply set_handler_field_has_filename; [eassumption|].
  intros _. exact Hf.
Qed.

(** The loop leaves alone the sections beside [handlers]. *)
Lemma redirect_file_handlers_top (logdir : string) (names : list string) :
  forall c n c' n',
    redirect_file_handlers logdir names c n = Ok (c', n') ->
    forall k0, k0 <> "handlers" -> getitem c' k0 = getitem c k0.
Proof.
  induction names as [|h rest IH]; intros c n c' n' H k0 Hne.
  - simpl in H. injection H as <- _. reflexivity.
  - destruct (redirect_step _ _ _ _ _ _ _ H)
      as [(_ & Hr)|(_ & f & c1 & _ & Hs & Hr)].
    + eapply IH; eassumption.
    + rewrite (IH _ _ _ _ Hr k0 Hne).
      eapply set_handler_field_top; eassumption.
Qed.

(** The loop leaves alone the handlers it does not meet and those without a
    file name. *)
Lemma redirect_file_handlers_frame (logdir : string) (names : list string) :
  forall c n c' n',
    redirect_file_handlers logdir names c n = Ok (c', n') ->
    forall h, ~ In h names \/ has_filename c h = Ok false ->
              handler_of c' h = handler_of c h.
Proof.
  induction names as [|h0 rest IH]; intros c n c' n' H h Hh.
  - simpl in H. injection H as <- _. reflexivity.
  - destruct (redirect_step _ _ _ _ _ _ _ H)
      as [(Hf & Hr)|(Hf & f & c1 & _ & Hs & Hr)].
    + apply (IH _ _ _ _ Hr). destruct Hh as [Hh|Hh]; [left|right; exact Hh].
      intros Hin. apply Hh. right. exact Hin.
    + assert (Hne : h <> h0).
      { intros ->. destruct Hh as [Hh|Hh]; [apply Hh; left; reflexivity|congruence]. }
      rewrite (IH _ _ _ _ Hr h).
      * eapply set_handler_field_other; eassumption.
      * destruct Hh as [Hh|Hh]; [left|right].
        -- intros Hin. apply Hh. right. exact Hin.
        -- rewrite (redirect_step_has_filename c h0 _ c1 Hf Hs). exact Hh.
Qed.

(** Every handler with a file name has it joined to the log directory, once. *)
Lemma redirect_file_handlers_moved (logdir : string) (names : list string) :
  NoDup names ->
  forall c n c' n',
    redirect_file_handlers logdir names c n = Ok (c', n') ->
    forall h, In h names -> has_filename c h = Ok true ->
    exists f, filename_of c h = Ok (YStr f)
              /\ filename_of c' h = Ok (YStr (os_path_join logdir f)).
Proof.
  induction 1 as [|h0 rest Hnin Hnd IH]; intros c n c' n' H h Hin Hfh;
    [contradiction|].
  destruct (redirect_step _ _ _ _ _ _ _ H)
    as [(Hf & Hr)|(Hf & f & c1 & Hold & Hs & Hr)].
  - destruct Hin as [->|Hin]; [congruence|].
    eapply IH; eassumption.
  - destruct Hin as [->|Hin].
    + exists f. split; [exact Hold|].
      rewrite (filename_of_handler c1 c' h
                 (redirect_file_handlers_frame _ _ _ _ _ _ Hr h (or_introl Hnin))).
      destruct (set_handler_field_self _ _ _ _ _ Hs) as (hd & _ & H2).
      unfold filename_of. rewrite H2. simpl. rewrite assoc_set_same. reflexivity.
    + assert (Hne : h <> h0) by (intros ->; contradiction).
      destruct (IH _ _ _ _ Hr h Hin) as (g & Hg1 & Hg2).
      { rewrite (redirect_step_has_filename c h0 _ c1 Hf Hs). exact Hfh. }
      exists g. split; [|exact Hg2].
      rewrite <- Hg1. symmetry. apply filename_of_handler.
      eapply set_handler_field_other; eassumption.
Qed.

(** The counter ends at the number of handlers with a file name. *)
Lemma redirect_file_handlers_count (logdir : string) (names : list string) :
  forall c n c' n',
    redirect_file_handlers logdir names c n = Ok (c', n') ->
    n' = n + Z.of_nat (List.length (filter (is_file_handler c) names)).
Proof.
  induction names as [|h0 rest IH]; intros c n c' n' H.
  - simpl in H. injection H as _ <-. simpl. lia.
  - destruct (redirect_step _ _ _ _ _ _ _ H)
      as [(Hf & Hr)|(Hf & f & c1 & _ & Hs & Hr)].
    + simpl. unfold is_file_handler at 1. rewrite Hf. eapply IH; eassumption.
    + simpl. unfold is_file_handler at 1. rewrite Hf.
      rewrite (IH _ _ _ _ Hr).
      rewrite (filter_ext (is_file_handler c1) (is_file_handler c)).
      * simpl List.length. lia.
      * intros a. unfold is_file_handler.
        rewrite (redirect_step_has_filename c h0 _ c1 Hf Hs). reflexivity.
Qed.

Lemma redirect_inv (logdir : string) (c c1 : yaml) (n : Z) :
  redirect logdir c = Ok (c1, n) ->
  exists names, handler_names c = Ok names
                /\ redirect_file_handlers logdir names c 0 = Ok (c1, n).
Proof.
  unfold redirect, handler_names.
  destruct (getitem c "handlers") as [hs|e]; simpl; [|discriminate].
  destruct (keys hs) as [names|e]; simpl; [|discriminate].
  eauto.
Qed.

End Redirection.

Section Runs.

Variable w : world.

Lemma reconcile_steps (requested : Z) (c1 c' : yaml) (ev : Z) :
  reconcile w requested c1 = Ok (c', ev) ->
  exists c2 names m0,
    set_handler_field c1 "console" "level" (YInt requested) = Ok c2
    /\ handler_names c2 = Ok names
    /\ most_verbose_of w names c2 m0 = Ok ev
    /\ set_root_level c2 ev = Ok c'.
Proof.
  unfold reconcile. intros H.
  destruct (set_handler_field c1 "console" "level" (YInt requested))
    as [c2|e] eqn:Hs; simpl in H; [|discriminate].
  destruct (getitem c2 "root") as [r|e]; simpl in H; [|discriminate].
  destruct (getitem r "level") as [name|e]; simpl in H; [|discriminate].
  destruct (getattr_logging w name) as [root|e]; simpl in H; [|discriminate].
  destruct (getitem c2 "handlers") as [hs|e] eqn:Hh; simpl in H; [|discriminate].
  destruct (keys hs) as [names|e] eqn:Hk; simpl in H; [|discriminate].
  destruct (most_verbose_of w names c2 (Z.min requested root)) as [mv|e] eqn:Hm;
    simpl in H; [|discriminate].
  destruct (set_root_level c2 mv) as [c3|e] eqn:Hset; simpl in H; [|discriminate].
  injection H as <- <-.
  exists c2, names, (Z.min requested root). repeat split; try assumption.
  unfold handler_names. rewrite Hh. simpl. exact Hk.
Qed.

(** Lines 62 to 70 touch the console handler and the root section only. *)
Lemma reconcile_frame (requested : Z) (c1 c' : yaml) (ev : Z) :
  reconcile w requested c1 = Ok (c', ev) ->
  handler_names c' = handler_names c1
  /\ (forall h, h <> "console" -> handler_of c' h = handler_of c1 h)
  /\ (forall h, filename_of c' h = filename_of c1 h)
  /\ (forall h, h <> "console" -> declared_level c' h = declared_level c1 h)
  /\ (forall k0, k0 <> "handlers" -> k0 <> "root" -> getitem c' k0 = getitem c1 k0).
Proof.
  intros H. destruct (reconcile_steps _ _ _ _ H) as (c2 & names & m0 & Hs & _ & _ & Hr).
  destruct (set_root_level_effect _ _ _ Hr) as [_ Hh].
  assert (Hof : forall h, handler_of c' h = handler_of c2 h).
  { intros h. unfold handler_of. rewrite Hh. reflexivity. }
  repeat split.
  - unfold handler_names. rewrite Hh.
    exact (set_handler_field_names _ _ _ _ _ Hs).
  - intros h Hne. rewrite Hof. eapply set_handler_field_other; eassumption.
  - intros h. unfold filename_of. rewrite Hof.
    destruct (String.eqb_spec h "console") as [->|Hne].
    + destruct (set_handler_field_self _ _ _ _ _ Hs) as (hd & H1 & H2).
      rewrite H1, H2. simpl. rewrite assoc_set_other by discriminate. reflexivity.
    + rewrite (set_handler_field_other _ _ _ _ _ h Hs Hne). reflexivity.
  - intros h Hne. unfold declared_level. rewrite Hof.
    rewrite (set_handler_field_other _ _ _ _ _ h Hs Hne). reflexivity.
  - intros k0 H1 H2. rewrite (set_root_level_top _ _ _ k0 Hr H2).
    eapply set_handler_field_top; eassumption.
Qed.

(** The [try] body once the document is loaded and has gone through the
    first loop. *)
Lemma load_and_configure_run (requested : Z) (path : string) (s : state)
    (c0 c1 : yaml) (n : Z) :
  load w path = Ok c0 ->
  redirect (log_dir w) c0 = Ok (c1, n) ->
  (0 < n -> mkdir_error w (log_dir w) = None) ->
  load_and_configure w requested path s =
  match reconcile w requested c1 with
  | Ok r => dictConfig w (fst r) (if 0 <? n then with_dir (log_dir w) s else s)
  | Raise e => (if 0 <? n then with_dir (log_dir w) s else s, Raise e)
  end.
Proof.
  intros Hl Hr Hm. unfold load_and_configure, bindM, lift. rewrite Hl, Hr.
  cbn [fst snd]. destruct (0 <? n) eqn:Hn.
  - unfold mkdir. rewrite Hm by (apply Z.ltb_lt; exact Hn). fold (with_dir (log_dir w) s).
    destruct (reconcile w requested c1); reflexivity.
  - unfold ret. destruct (reconcile w requested c1); reflexivity.
Qed.

(** Whatever its outcome, the [try] body prints nothing and logs nothing. *)
Lemma load_and_configure_quiet (requested : Z) (path : string) (s s' : state)
    (r : result unit) :
  load_and_configure w requested path s = (s', r) ->
  stdout s' = stdout s /\ log_calls s' = log_calls s.
Proof.
  destruct r as [[]|e]; intros H.
  - unfold load_and_configure, bindM, lift in H.
    destruct (load w path) as [c0|e]; [|discriminate].
    destruct (redirect (log_dir w) c0) as [[c1 n]|e]; [|discriminate].
    cbn [fst snd] in H.
    assert (Hm : forall s1 u, (if 0 <? n then mkdir w (log_dir w) else ret tt) s
                              = (s1, Ok u) ->
                              stdout s1 = stdout s /\ log_calls s1 = log_calls s).
    { intros s1 u. destruct (0 <? n); [|intros [= <- _]; auto].
      unfold mkdir. destruct (mkdir_error w (log_dir w)); [discriminate|].
      intros [= <- _]. auto. }
    destruct ((if 0 <? n then mkdir w (log_dir w) else ret tt) s) as [s1 [u|e]];
      [|discriminate].
    destruct (Hm s1 u eq_refl) as [<- <-].
    destruct (reconcile w requested c1) as [[c' ev]|e]; [|discriminate].
    cbn [fst] in H. unfold dictConfig in H.
    destruct (dictConfig_error w c'); [discriminate|].
    injection H as <-. auto.
  - destruct (load_and_configure_Raise w requested path s s' e H) as (_ & H1 & H2).
    auto.
Qed.

Lemma load_and_configure_dirs (requested : Z) (path : string) (s s' : state) :
  load_and_configure w requested path s = (s', Ok tt) ->
  exists c0 c1 n,
    load w path = Ok c0 /\ redirect (log_dir w) c0 = Ok (c1, n)
    /\ created_dirs s' = created_dirs (if 0 <? n then with_dir (log_dir w) s else s).
Proof.
  unfold load_and_configure, bindM, lift.
  destruct (load w path) as [c0|e] eqn:Hl; [|discriminate].
  destruct (redirect (log_dir w) c0) as [[c1 n]|e] eqn:Hr; [|discriminate].
  cbn [fst snd]. intros H. exists c0, c1, n.
  split; [reflexivity|]. split; [exact Hr|].
  destruct (0 <? n).
  - unfold mkdir in H. destruct (mkdir_error w (log_dir w)); [discriminate|].
    destruct (reconcile w requested c1) as [[c' ev]|e]; [|discriminate].
    cbn [fst] in H. unfold dictConfig in H.
    destruct (dictConfig_error w c'); [discriminate|].
    injection H as <-. reflexivity.
  - unfold ret in H.
    destruct (reconcile w requested c1) as [[c' ev]|e]; [|discriminate].
    cbn [fst] in H. unfold dictConfig in H.
    destruct (dictConfig_error w c'); [discriminate|].
    injection H as <-. reflexivity.
Qed.

Lemma load_and_configure_load_error (requested : Z) (path : string) (s : state) (e : exn) :
  load w path = Raise e -> load_and_configure w requested path s = (s, Raise e).
Proof.
  intros H. unfold load_and_configure, bindM, lift. rewrite H. reflexivity.
Qed.

End Runs.

Section Activation.

Lemma fold_min_mono (l : list Z) :
  forall m1 m2, m1 <= m2 -> fold_left Z.min l m1 <= fold_left Z.min l m2.
Proof.
  induction l as [|a l IH]; simpl; intros m1 m2 H; [exact H|].
  apply IH. lia.
Qed.

Lemma In_with_dir (logdir : string) (s : state) :
  In logdir (created_dirs (with_dir logdir s)).
Proof.
  unfold with_dir. simpl. destruct (mem logdir (created_dirs s)) eqn:Hm.
  - apply mem_In. exact Hm.
  - apply in_or_app. right. left. reflexivity.
Qed.

(** What a run that activated the document went through. *)
Lemma activation_inv (w : world) (requested : Z) (dp : string) (s s' : state)
    (activated : yaml) :
  active s = Unconfigured ->
  setup_logging w requested dp s = (s', Ok tt) ->
  active s' = DictConfigured activated ->
  exists declared c1 n names ev,
    load w (config_path w dp) = Ok declared
    /\ handler_names declared = Ok names
    /\ redirect_file_handlers (log_dir w) names declared 0 = Ok (c1, n)
    /\ same_levels declared c1
    /\ reconcile w requested c1 = Ok (activated, ev)
    /\ created_dirs s'
       = created_dirs (if 0 <? n then with_dir (log_dir w) s else s)
    /\ stdout s' = stdout s /\ log_calls s' = log_calls s.
Proof.
  intros Ha Hrun Hact.
  pose proof (setup_logging_activated w requested dp s s' activated Ha Hrun Hact) as Hb.
  destruct (load_and_configure_Ok w requested _ s s' Hb)
    as (c0 & c1 & n & c' & ev & Hl & Hr & Hc & Hact' & _).
  assert (c' = activated) by congruence. subst c'.
  destruct (load_and_configure_dirs w requested _ s s' Hb)
    as (c0' & c1' & n' & Hl' & Hr' & Hd).
  assert (c0' = c0) by congruence. subst c0'.
  assert (E : (c1', n') = (c1, n)) by congruence. injection E as -> ->.
  destruct (load_and_configure_quiet w requested _ s s' _ Hb) as [Ho Hlog].
  destruct (redirect_inv _ _ _ _ Hr) as (names & Hn & Hrf).
  exists c0, c1, n, names, ev.
  repeat (split; [assumption|]).
  split; [eapply redirect_same_levels; eassumption|].
  auto.
Qed.

End Activation.

Section Fallback.

(** X8: in a process without logging configuration, a missing configuration
    file, a [ScannerError] while the file is loaded and a [KeyError] in the
    [try] body all end the same way: [setup_logging] returns normally, prints
    one diagnostic that names the path or the key, then
    ["Reverting to basic logging."], and the basic configuration is active at
    the requested level. *)
Theorem bootstrap_falls_back (w : world) (requested : Z) (dp : string) (s : state) :
  active s = Unconfigured ->
  (path_exists w (config_path w dp) = false ->
   setup_logging w requested dp s =
   ({| stdout := stdout s
                 ++ ["Unable to open logging config file " ++ quoted (config_path w dp);
                     "Reverting to basic logging."];
       active := BasicConfigured requested;
       created_dirs := created_dirs s; log_calls := log_calls s |}, Ok tt))
  /\ (forall e,
        path_exists w (config_path w dp) = true ->
        load w (config_path w dp) = Raise e -> exc_type e = ScannerError ->
        setup_logging w requested dp s =
        ({| stdout := stdout s
                      ++ ["Error parsing logging config file "
                            ++ quoted (config_path w dp);
                          "Reverting to basic logging."];
            active := BasicConfigured requested;
            created_dirs := created_dirs s; log_calls := log_calls s |}, Ok tt))
  /\ (forall s1 e,
        path_exists w (config_path w dp) = true ->
        load_and_configure w requested (config_path w dp) s = (s1, Raise e) ->
        exc_type e = KeyError ->
        setup_logging w requested dp s =
        ({| stdout := stdout s
                      ++ ["Key " ++ exc_str e ++ " not found in logging config file";
                          "Reverting to basic logging."];
            active := BasicConfigured requested;
            created_dirs := created_dirs s1; log_calls := log_calls s |}, Ok tt)).
Proof.
  intros Ha. split; [|split].
  - intros Hp. rewrite (setup_logging_missing_file w requested dp s Hp).
    unfold fell_back. rewrite Ha. reflexivity.
  - intros e Hp Hl He.
    rewrite (setup_logging_body w requested dp s s _ Hp
               (load_and_configure_load_error w requested _ s e Hl)), He.
    unfold fell_back. rewrite Ha. reflexivity.
  - intros s1 e Hp Hb He.
    rewrite (setup_logging_body w requested dp s s1 _ Hp Hb), He.
    destruct (load_and_configure_Raise w requested _ s s1 e Hb) as (A1 & O1 & L1).
    unfold fell_back. rewrite A1, Ha, O1, L1. reflexivity.
Qed.

Lemma bootstrap_falls_back_witness :
  setup_logging (world_of (Raise (Exn ScannerError "mapping values are not allowed here")))
                40 "logging.yaml" initial_state
  = ({| stdout := ["Error parsing logging config file '/opt/pymcuprog/logging.yaml'";
                   "Reverting to basic logging."];
        active := BasicConfigured 40;
        created_dirs := []; log_calls := [] |}, Ok tt).
Proof.
  exact (proj1 (proj2 (bootstrap_falls_back
                         (world_of (Raise (Exn ScannerError
                                             "mapping values are not allowed here")))
                         40 "logging.yaml" initial_state eq_refl))
               _ eq_refl eq_refl eq_refl).
Defined.

(** X9: a run of [setup_logging] ends in one of three ways.  It returns
    after activating a document that [dictConfig] accepted, and then has
    printed nothing; or it returns after printing a diagnostic and
    ["Reverting to basic logging."]; or an exception leaves it, which is
    never a [ScannerError] or a [KeyError], and then nothing is printed.  In
    no case is a logger called. *)
Theorem bootstrap_outcomes (w : world) (requested : Z) (dp : string) (s : state) :
  match setup_logging w requested dp s with
  | (s', Ok _) =>
      log_calls s' = log_calls s
      /\ ((exists c, active s' = DictConfigured c /\ stdout s' = stdout s
                      /\ dictConfig_error w c = None)
          \/ (exists line,
                 stdout s' = (stdout s ++ [line; "Reverting to basic logging."])%list))
  | (s', Raise e) =>
      log_calls s' = log_calls s
      /\ exc_type e <> ScannerError /\ exc_type e <> KeyError
      /\ stdout s' = stdout s
  end.
Proof.
  destruct (path_exists w (config_path w dp)) eqn:Hp.
  - destruct (load_and_configure w requested (config_path w dp) s) as [s1 r] eqn:Hb.
    rewrite (setup_logging_body w requested dp s s1 r Hp Hb).
    destruct (load_and_configure_quiet w requested _ s s1 r Hb) as [Ho Hl].
    destruct r as [[]|e].
    + split; [exact Hl|]. left.
      destruct (load_and_configure_Ok w requested _ s s1 Hb)
        as (c0 & c1 & n & c' & ev & _ & _ & _ & Hact & _).
      exists c'. repeat split; try assumption.
      (* [dictConfig] accepted the document *)
      unfold load_and_configure, bindM, lift in Hb.
      destruct (load w (config_path w dp)) as [d0|]; [|discriminate].
      destruct (redirect (log_dir w) d0) as [[d1 k]|]; [|discriminate].
      cbn [fst snd] in Hb.
      destruct ((if 0 <? k then mkdir w (log_dir w) else ret tt) s) as [sm [u|]];
        [|discriminate].
      destruct (reconcile w requested d1) as [[d2 v]|]; [|discriminate].
      cbn [fst] in Hb. unfold dictConfig in Hb.
      destruct (dictConfig_error w d2) eqn:Hd; [discriminate|].
      injection Hb as <-. simpl in Hact. injection Hact as <-. exact Hd.
    + destruct (exc_type e) eqn:He; cbv beta iota;
        try (split; [exact Hl|]; split; [congruence|]; split; [congruence|];
             assumption).
      * split; [simpl; exact Hl|]. right. eexists. simpl. rewrite Ho. reflexivity.
      * split; [simpl; exact Hl|]. right. eexists. simpl. rewrite Ho. reflexivity.
  - rewrite (setup_logging_missing_file w requested dp s Hp).
    split; [reflexivity|]. right. eexists. reflexivity.
Qed.

End Fallback.

Section ActivatedDocument.

(** The file name of a file handler before and after a run that activated
    the document. *)
Lemma activated_filename (w : world) (requested : Z) (dp : string) (s s' : state)
    (activated declared : yaml) (names : list string) (h : string) :
  active s = Unconfigured ->
  setup_logging w requested dp s = (s', Ok tt) ->
  active s' = DictConfigured activated ->
  load w (config_path w dp) = Ok declared ->
  handler_names declared = Ok names ->
  NoDup names ->
  is_file_handler declared h = true ->
  exists f, filename_of declared h = Ok (YStr f)
            /\ filename_of activated h = Ok (YStr (os_path_join (log_dir w) f)).
Proof.
  intros Ha Hrun Hact Hl Hn Hnd Hf.
  destruct (activation_inv w requested dp s s' activated Ha Hrun Hact)
    as (d & c1 & n & names' & ev & Hl' & Hn' & Hr & _ & Hc & _).
  assert (d = declared) by congruence. subst d.
  assert (names' = names) by congruence. subst names'.
  destruct (redirect_file_handlers_moved _ _ Hnd _ _ _ _ Hr h
              (file_handler_named declared h names Hf Hn)
              (proj1 (is_file_handler_true declared h) Hf)) as (f & H1 & H2).
  exists f. split; [exact H1|].
  destruct (reconcile_frame w requested c1 activated ev Hc) as (_ & _ & Hfn & _).
  rewrite Hfn. exact H2.
Qed.


Lemma two_names_distinct : NoDup ["console"; "logfile"].
Proof.
  constructor; [intros [H|[]]; discriminate|].
  constructor; [intros []|constructor].
Qed.


Lemma os_path_join_absolute (a f : string) :
  starts_with_slash f = true -> os_path_join a f = f.
Proof. intros H. unfold os_path_join. rewrite H. reflexivity. Qed.

(** X11: a file handler whose declared file name is absolute keeps that name
    in the activated document: its log is not moved under the user log
    directory, which is created all the same. *)
Theorem absolute_file_name_kept (w : world) (requested : Z) (dp : string)
    (s s' : state) (activated declared : yaml) (names : list string)
    (h f : string) :
  active s = Unconfigured ->
  setup_logging w requested dp s = (s', Ok tt) ->
  active s' = DictConfigured activated ->
  load w (config_path w dp) = Ok declared ->
  handler_names declared = Ok names ->
  NoDup names ->
  filename_of declared h = Ok (YStr f) ->
  starts_with_slash f = true ->
  filename_of activated h = Ok (YStr f)
  /\ In (log_dir w) (created_dirs s').
Proof.
  intros Ha Hrun Hact Hl Hn Hnd Hfn Habs.
  assert (Hf : is_file_handler declared h = true).
  { unfold is_file_handler, has_filename. unfold filename_of in Hfn.
    destruct (handler_of declared h) as [hd|e]; simpl in *; [|discriminate].
    destruct (getitem_Ok _ _ _ Hfn) as (kvs & -> & Hk). simpl.
    rewrite mem_keys_assoc, Hk. reflexivity. }
  destruct (activated_filename w requested dp s s' activated declared names h
              Ha Hrun Hact Hl Hn Hnd Hf) as (g & H1 & H2).
  assert (g = f) by congruence. subst g.
  rewrite (os_path_join_absolute _ _ Habs) in H2. split; [exact H2|].
  destruct (activation_inv w requested dp s s' activated Ha Hrun Hact)
    as (d & c1 & n & names' & ev & Hl' & Hn' & Hr & _ & _ & Hd & _).
  assert (d = declared) by congruence. subst d.
  assert (names' = names) by congruence. subst names'.
  pose proof (redirect_file_handlers_count _ _ _ _ _ _ Hr) as Hcount.
  assert (Hin : In h (filter (is_file_handler declared) names)).
  { apply filter_In. split; [|exact Hf]. eapply file_handler_named; eassumption. }
  assert (Hpos : 0 < n).
  { destruct (filter (is_file_handler declared) names); [contradiction|].
    simpl List.length in Hcount. lia. }
  apply Z.ltb_lt in Hpos. rewrite Hd, Hpos. apply In_with_dir.
Qed.

Lemma absolute_file_name_kept_witness :
  filename_of (activated_document (after_setup (world_of (Ok absolute_file)) 30))
              "logfile"
  = Ok (YStr "/var/log/pymcuprog.log")
  /\ In "/home/dev/.cache/pymcuprog/log"
        (created_dirs (after_setup (world_of (Ok absolute_file)) 30)).
Proof.
  exact (absolute_file_name_kept
           (world_of (Ok absolute_file)) 30 "logging.yaml" initial_state
           (after_setup (world_of (Ok absolute_file)) 30)
           (activated_document (after_setup (world_of (Ok absolute_file)) 30))
           absolute_file ["console"; "logfile"] "logfile" "/var/log/pymcuprog.log"
           eq_refl eq_refl eq_refl eq_refl eq_refl two_names_distinct
           eq_refl eq_refl).
Defined.

End ActivatedDocument.

Section LogDirectory.

(** X13: a run that activates the document makes the user log directory
    exactly when a handler has a [filename] key: without such a handler
    [mkdir] is not called and nothing is created, with one the log directory
    has been made. *)
Theorem log_directory_created (w : world) (requested : Z) (dp : string)
    (s s' : state) (activated declared : yaml) :
  active s = Unconfigured ->
  setup_logging w requested dp s = (s', Ok tt) ->
  active s' = DictConfigured activated ->
  load w (config_path w dp) = Ok declared ->
  ((forall h, is_file_handler declared h = false) ->
   created_dirs s' = created_dirs s)
  /\ ((exists h, is_file_handler declared h = true) ->
      In (log_dir w) (created_dirs s')).
Proof.
  intros Ha Hrun Hact Hl.
  destruct (activation_inv w requested dp s s' activated Ha Hrun Hact)
    as (d & c1 & n & names & ev & Hl' & Hn & Hr & _ & _ & Hd & _).
  assert (d = declared) by congruence. subst d.
  pose proof (redirect_file_handlers_count _ _ _ _ _ _ Hr) as Hcount.
  split.
  - intros Hnone.
    assert (E : filter (is_file_handler declared) names = []).
    { clear - Hnone. induction names as [|a l IH]; simpl; [reflexivity|].
      rewrite Hnone. exact IH. }
    rewrite E in Hcount. simpl in Hcount. subst n. exact Hd.
  - intros (h & Hf).
    assert (Hin : In h (filter (is_file_handler declared) names)).
    { apply filter_In. split; [|exact Hf]. eapply file_handler_named; eassumption. }
    assert (Hpos : 0 < n).
    { destruct (filter (is_file_handler declared) names); [contradiction|].
      simpl List.length in Hcount. lia. }
    apply Z.ltb_lt in Hpos. rewrite Hd, Hpos. apply In_with_dir.
Qed.

Lemma log_directory_created_witness :
  created_dirs (after_setup (world_of (Ok console_and_syslog)) 30) = []
  /\ In "/home/dev/.cache/pymcuprog/log"
        (created_dirs (after_setup (world_of (Ok console_and_file)) 30)).
Proof.
  split.
  - apply (proj1 (log_directory_created
                    (world_of (Ok console_and_syslog)) 30 "logging.yaml" initial_state
                    (after_setup (world_of (Ok console_and_syslog)) 30)
                    (activated_document
                       (after_setup (world_of (Ok console_and_syslog)) 30))
                    console_and_syslog eq_refl eq_refl eq_refl eq_refl)).
    intros h. unfold is_file_handler, has_filename, handler_of. simpl.
    destruct (String.eqb h "console"); [reflexivity|].
    destruct (String.eqb h "syslog"); reflexivity.
  - apply (proj2 (log_directory_created
                    (world_of (Ok console_and_file)) 30 "logging.yaml" initial_state
                    (after_setup (world_of (Ok console_and_file)) 30)
                    (activated_document
                       (after_setup (world_of (Ok console_and_file)) 30))
                    console_and_file eq_refl eq_refl eq_refl eq_refl)).
    exists "logfile". reflexivity.
Defined.

End LogDirectory.

Section Verbosity.

(** X14: asking for more verbosity never makes the root logger less verbose:
    of two runs in the same world that activate the document, the one with
    the lower requested level ends with the lower or the same root level. *)
Theorem more_verbose_request (w : world) (dp : string) (r1 r2 : Z)
    (s1 s1' s2 s2' : state) (a1 a2 : yaml) (ev1 ev2 : Z) :
  active s1 = Unconfigured ->
  setup_logging w r1 dp s1 = (s1', Ok tt) ->
  active s1' = DictConfigured a1 ->
  active s2 = Unconfigured ->
  setup_logging w r2 dp s2 = (s2', Ok tt) ->
  active s2' = DictConfigured a2 ->
  root_level a1 = Ok (YInt ev1) ->
  root_level a2 = Ok (YInt ev2) ->
  r1 <= r2 ->
  ev1 <= ev2.
Proof.
  intros A1 R1 D1 A2 R2 D2 L1 L2 Hle.
  destruct (activation_inv w r1 dp s1 s1' a1 A1 R1 D1)
    as (d & c1 & n & names & e1 & Hl & Hn & _ & S1 & C1 & _).
  destruct (activation_inv w r2 dp s2 s2' a2 A2 R2 D2)
    as (d' & c1' & n' & names' & e2 & Hl' & Hn' & _ & S2 & C2 & _).
  assert (d' = d) by congruence. subst d'.
  destruct (reconcile_effective w r1 d c1 a1 e1 S1 C1)
    as (nm & root & ns & Hroot & Hg & Hns & Hev1 & Hra1 & _).
  destruct (reconcile_effective w r2 d c1' a2 e2 S2 C2)
    as (nm' & root' & ns' & Hroot' & Hg' & Hns' & Hev2 & Hra2 & _).
  assert (nm' = nm) by congruence. subst nm'.
  assert (root' = root) by congruence. subst root'.
  assert (ns' = ns) by congruence. subst ns'.
  assert (E1 : e1 = ev1) by congruence. assert (E2 : e2 = ev2) by congruence.
  rewrite <- E1, <- E2, Hev1, Hev2. unfold effective_verbosity.
  apply fold_min_mono. lia.
Qed.

Lemma more_verbose_request_witness : 10 <= 30.
Proof.
  exact (more_verbose_request
           (world_of (Ok console_and_file)) "logging.yaml" 10 30
           initial_state (after_setup (world_of (Ok console_and_file)) 10)
           initial_state (after_setup (world_of (Ok console_and_file)) 30)
           (activated_document (after_setup (world_of (Ok console_and_file)) 10))
           (activated_document (after_setup (world_of (Ok console_and_file)) 30))
           10 30
           eq_refl eq_refl eq_refl eq_refl eq_refl eq_refl eq_refl eq_refl
           ltac:(lia)).
Defined.

End Verbosity.

Section MissingParts.

Lemma not_In_assoc {A : Type} (k : string) (kvs : list (string * A)) :
  ~ In k (map fst kvs) -> assoc k kvs = None.
Proof.
  intros H. destruct (assoc k kvs) as [v|] eqn:E; [|reflexivity].
  elim H. eapply assoc_In_keys; eassumption.
Qed.

Lemma handler_names_inv (c : yaml) (names : list string) :
  handler_names c = Ok names ->
  exists hs, getitem c "handlers" = Ok (YMap hs) /\ names = map fst hs.
Proof.
  unfold handler_names.
  destruct (getitem c "handlers") as [[| | | | |hs]|e]; simpl; try discriminate.
  intros [= <-]. eauto.
Qed.

(** Without a console handler the assignment of line 62 raises a [KeyError]. *)
Lemma reconcile_without_console (w : world) (requested : Z) (c : yaml)
    (names : list string) :
  handler_names c = Ok names -> ~ In "console" names ->
  reconcile w requested c = Raise (Exn KeyError "'console'").
Proof.
  intros Hn Hnin. destruct (handler_names_inv c names Hn) as (hs & Hh & ->).
  unfold reconcile, set_handler_field. rewrite Hh. simpl.
  rewrite (not_In_assoc "console" hs Hnin). reflexivity.
Qed.

(** X15: a document without a [console] handler is not activated:
    [setup_logging] prints ["Key 'console' not found in logging config file"]
    and falls back to the basic configuration.  The file names have been
    rewritten by then, and with a file handler in the document the log
    directory has been created although no file logging follows. *)
Theorem missing_console_handler (w : world) (requested : Z) (dp : string) (s : state)
    (declared c1 : yaml) (n : Z) (names : list string) :
  path_exists w (config_path w dp) = true ->
  load w (config_path w dp) = Ok declared ->
  redirect (log_dir w) declared = Ok (c1, n) ->
  (0 < n -> mkdir_error w (log_dir w) = None) ->
  handler_names declared = Ok names ->
  ~ In "console" names ->
  setup_logging w requested dp s =
  (fell_back ["Key 'console' not found in logging config file";
              "Reverting to basic logging."] requested
             (if 0 <? n then with_dir (log_dir w) s else s), Ok tt).
Proof.
  intros Hp Hl Hr Hm Hn Hnin.
  destruct (redirect_same_levels _ _ _ _ Hr) as (_ & SN & _).
  assert (Hrec : reconcile w requested c1 = Raise (Exn KeyError "'console'")).
  { apply (reconcile_without_console w requested c1 names); [congruence|exact Hnin]. }
  pose proof (load_and_configure_run w requested _ s declared c1 n Hl Hr Hm) as Hb.
  rewrite Hrec in Hb.
  rewrite (setup_logging_body w requested dp s _ _ Hp Hb). reflexivity.
Qed.

Lemma missing_console_handler_witness :
  setup_logging (world_of (Ok file_only)) 30 "logging.yaml" initial_state
  = ({| stdout := ["Key 'console' not found in logging config file";
                   "Reverting to basic logging."];
        active := BasicConfigured 30;
        created_dirs := ["/home/dev/.cache/pymcuprog/log"];
        log_calls := [] |}, Ok tt).
Proof.
  refine (missing_console_handler
            (world_of (Ok file_only)) 30 "logging.yaml" initial_state
            file_only _ 1 ["logfile"] eq_refl eq_refl eq_refl (fun _ => eq_refl)
            eq_refl _).
  intros [H|[]]. discriminate H.
Defined.

(** X16: a console handler that carries a [filename] key makes the
    activation impossible: whenever [setup_logging] activates a document, its
    console handler is not a file handler. *)
Theorem console_is_no_file_handler (w : world) (requested : Z) (dp : string)
    (s s' : state) (activated declared : yaml) :
  active s = Unconfigured ->
  setup_logging w requested dp s = (s', Ok tt) ->
  active s' = DictConfigured activated ->
  load w (config_path w dp) = Ok declared ->
  is_file_handler declared "console" = false.
Proof.
  intros Ha Hrun Hact Hl.
  destruct (activation_inv w requested dp s s' activated Ha Hrun Hact)
    as (d & c1 & n & names & ev & Hl' & Hn & _ & (_ & SN & SF & _) & Hc & _).
  assert (d = declared) by congruence. subst d.
  destruct (is_file_handler declared "console") eqn:Hf; [|reflexivity].
  exfalso.
  destruct (reconcile_steps w requested c1 activated ev Hc)
    as (c2 & names2 & m0 & Hs & Hn2 & Hm & _).
  rewrite (set_handler_field_names _ _ _ _ _ Hs), SN, Hn in Hn2.
  injection Hn2 as <-.
  assert (Hf2 : has_filename c2 "console" = Ok true).
  { rewrite (set_handler_field_has_filename _ _ _ _ _ Hs) by discriminate.
    rewrite SF. apply is_file_handler_true. exact Hf. }
  destruct (most_verbose_of_defined w names c2 _ _ Hm "console"
              (file_handler_named declared "console" names Hf Hn) Hf2)
    as (lv & k & Hd & Hg).
  rewrite (set_handler_field_level_self _ _ _ _ Hs) in Hd.
  injection Hd as <-. discriminate Hg.
Qed.

Lemma console_is_no_file_handler_witness :
  is_file_handler console_and_file "console" = false.
Proof.
  exact (console_is_no_file_handler
           (world_of (Ok console_and_file)) 20 "logging.yaml" initial_state
           (after_setup (world_of (Ok console_and_file)) 20)
           (activated_document (after_setup (world_of (Ok console_and_file)) 20))
           console_and_file eq_refl eq_refl eq_refl eq_refl).
Defined.

Lemma getattr_logging_error (w : world) (v : yaml) (e : exn) :
  getattr_logging w v = Raise e ->
  exc_type e = AttributeError \/ exc_type e = TypeError.
Proof.
  destruct v; simpl; try (intros [= <-]; right; reflexivity).
  destruct (logging_attr w s); [discriminate|].
  destruct (logging_object w s); intros [= <-]; [right | left]; reflexivity.
Qed.

(** X17: when [getattr(logging, ...)] raises on the root level of the
    document (a name that [logging] does not have, or a number), that
    exception leaves [setup_logging]: nothing is printed, the basic
    configuration is not set up, and the log directory may already have been
    created. *)
Theorem root_level_not_a_constant (w : world) (requested : Z) (dp : string) (s : state)
    (declared c1 : yaml) (n : Z) (hd : list (string * yaml)) (v : yaml) (e : exn) :
  path_exists w (config_path w dp) = true ->
  load w (config_path w dp) = Ok declared ->
  redirect (log_dir w) declared = Ok (c1, n) ->
  (0 < n -> mkdir_error w (log_dir w) = None) ->
  handler_of declared "console" = Ok (YMap hd) ->
  root_level declared = Ok v ->
  getattr_logging w v = Raise e ->
  setup_logging w requested dp s
  = (if 0 <? n then with_dir (log_dir w) s else s, Raise e).
Proof.
  intros Hp Hl Hr Hm Hcon Hroot Hg.
  destruct (redirect_same_levels _ _ _ _ Hr) as (SR & _ & SF & _).
  (* the console handler is still a dictionary after the first loop *)
  assert (Hc1 : exists hd1, handler_of c1 "console" = Ok (YMap hd1)).
  { specialize (SF "console"). unfold has_filename in SF.
    rewrite Hcon in SF. simpl in SF.
    destruct (handler_of c1 "console") as [[| | | | |hd1]|]; simpl in SF;
      try discriminate. eauto. }
  destruct Hc1 as (hd1 & Hc1).
  destruct (handler_of_Ok _ _ _ Hc1) as (top & hs & -> & Ht & Hh).
  assert (Hrec : reconcile w requested (YMap top) = Raise e).
  { unfold reconcile, set_handler_field. simpl. rewrite Ht. simpl. rewrite Hh. simpl.
    rewrite assoc_set_other by discriminate.
    unfold root_level in Hroot. rewrite <- SR in Hroot. simpl in Hroot.
    destruct (assoc "root" top) as [r|]; simpl in *; [|discriminate].
    rewrite Hroot. simpl. rewrite Hg. reflexivity. }
  pose proof (load_and_configure_run w requested _ s declared _ n Hl Hr Hm) as Hb.
  rewrite Hrec in Hb.
  rewrite (setup_logging_body w requested dp s _ _ Hp Hb).
  destruct (getattr_logging_error w v e Hg) as [-> | ->]; reflexivity.
Qed.

Lemma root_level_not_a_constant_witness :
  setup_logging (world_of (Ok unknown_root)) 30 "logging.yaml" initial_state
  = (initial_state,
     Raise (Exn AttributeError "module 'logging' has no attribute 'VERBOSE'")).
Proof.
  exact (root_level_not_a_constant
           (world_of (Ok unknown_root)) 30 "logging.yaml" initial_state
           unknown_root unknown_root 0 _ (YStr "VERBOSE") _
           eq_refl eq_refl eq_refl (fun _ => eq_refl) eq_refl eq_refl eq_refl).
Defined.

End MissingParts.

Section Environment.

(** X18: a non-empty value of the environment variable is the path of the
    configuration file, and the file shipped with the program is then not
    looked at: when nothing exists at that path [setup_logging] falls back to
    the basic configuration and names the path in its diagnostic.  An unset
    or empty variable selects the shipped file. *)
Theorem environment_selects_file (w : world) (requested : Z) (dp : string) (s : state) :
  (forall value,
     getenv w = Some value -> value <> EmptyString ->
     config_path w dp = value
     /\ (path_exists w value = false ->
         setup_logging w requested dp s =
         (fell_back ["Unable to open logging config file " ++ quoted value;
                     "Reverting to basic logging."] requested s, Ok tt)))
  /\ (getenv w = None \/ getenv w = Some EmptyString ->
      config_path w dp = os_path_join (module_dir w) dp).
Proof.
  split.
  - intros value Hg Hne.
    assert (Hp : config_path w dp = value).
    { unfold config_path. rewrite Hg. destruct value; [contradiction|reflexivity]. }
    split; [exact Hp|]. intros He.
    rewrite <- Hp in He. rewrite (setup_logging_missing_file w requested dp s He), Hp.
    reflexivity.
  - intros [H|H]; unfold config_path; rewrite H; reflexivity.
Qed.

Lemma environment_selects_file_witness :
  config_path world_without_file "logging.yaml" = "/etc/missing.yaml"
  /\ config_path (world_of (Ok YNull)) "logging.yaml" = "/opt/pymcuprog/logging.yaml".
Proof.
  split.
  - apply (proj1 (environment_selects_file world_without_file 30 "logging.yaml"
                    initial_state) "/etc/missing.yaml" eq_refl).
    discriminate.
  - apply (proj2 (environment_selects_file (world_of (Ok YNull)) 30 "logging.yaml"
                    initial_state)).
    left. reflexivity.
Defined.

(** X19: a failure after the document is read is not turned into the basic
    configuration unless it is a [KeyError] or a [ScannerError]: when the log
    directory cannot be created, or when [dictConfig] rejects the reconciled
    document, the exception leaves [setup_logging] and nothing is printed. *)
Theorem late_failures_leave (w : world) (requested : Z) (dp : string) (s : state)
    (declared c1 : yaml) (n : Z) (e : exn) :
  path_exists w (config_path w dp) = true ->
  load w (config_path w dp) = Ok declared ->
  redirect (log_dir w) declared = Ok (c1, n) ->
  exc_type e <> KeyError -> exc_type e <> ScannerError ->
  (0 < n -> mkdir_error w (log_dir w) = Some e ->
   setup_logging w requested dp s = (s, Raise e))
  /\ (forall c' ev,
        (0 < n -> mkdir_error w (log_dir w) = None) ->
        reconcile w requested c1 = Ok (c', ev) ->
        dictConfig_error w c' = Some e ->
        setup_logging w requested dp s
        = (if 0 <? n then with_dir (log_dir w) s else s, Raise e)).
Proof.
  intros Hp Hl Hr Hk Hs.
  assert (Hout : forall s1, (s1, @Raise unit e)
                            = match exc_type e with
                              | ScannerError =>
                                  (fell_back
                                     ["Error parsing logging config file "
                                        ++ quoted (config_path w dp);
                                      "Reverting to basic logging."] requested s1, Ok tt)
                              | KeyError =>
                                  (fell_back
                                     ["Key " ++ exc_str e
                                        ++ " not found in logging config file";
                                      "Reverting to basic logging."] requested s1, Ok tt)
                              | _ => (s1, Raise e)
                              end).
  { intros s1. destruct (exc_type e); try reflexivity; contradiction. }
  split.
  - intros Hn Hm.
    assert (Hb : load_and_configure w requested (config_path w dp) s = (s, Raise e)).
    { unfold load_and_configure, bindM, lift. rewrite Hl, Hr. cbn [fst snd].
      apply Z.ltb_lt in Hn. rewrite Hn. unfold mkdir. rewrite Hm. reflexivity. }
    rewrite (setup_logging_body w requested dp s _ _ Hp Hb). symmetry. apply Hout.
  - intros c' ev Hm Hc Hd.
    pose proof (load_and_configure_run w requested _ s declared c1 n Hl Hr Hm) as Hb.
    rewrite Hc in Hb. cbn [fst] in Hb. unfold dictConfig in Hb. rewrite Hd in Hb.
    unfold lift in Hb.
    rewrite (setup_logging_body w requested dp s _ _ Hp Hb). symmetry. apply Hout.
Qed.

Lemma late_failures_leave_witness :
  setup_logging (world_read_only console_and_file) 30 "logging.yaml" initial_state
  = (initial_state, Raise (Exn OSError "Permission denied")).
Proof.
  refine (proj1 (late_failures_leave (world_read_only console_and_file)
                   30 "logging.yaml" initial_state
                   console_and_file _ 1 (Exn OSError "Permission denied")
                   eq_refl eq_refl eq_refl _ _) _ eq_refl);
    [discriminate | discriminate | lia].
Defined.

End Environment.
